(** * O8_knot-back: the search-and-summarise pipeline of [main.py]

    A shallow embedding of the FastAPI service of [main.py]: the pure
    helpers ([extract_keywords], [generate_search_query],
    [evaluate_and_filter_results], [render_latex]), the stages that talk
    to the outside world ([perform_search], [fetch_content],
    [fetch_wikipedia_content], [summarize_results]) and the two
    transports ([search] for POST /search and [websocket_search] for
    /ws/search).

    Conventions.
    - A Python [str] is a [string]; every [ascii] stands for one code
      point below 256, so [String.length] is Python's [len].
    - A Python [int] is a [Z].
    - A search result (a JSON object of the search API) is a
      [gmap string string]; [result["link"]] is a lookup that raises
      [KeyError] when the key is absent.
    - [async]/[await] code runs as one sequential task, so it is a
      computation in a state-and-exception monad [M] over the trace of
      the effects it performs; the outside world (HTTP servers, the
      generative model, the WebSocket peer) is a record of oracles. *)

From stdpp Require Import base list strings gmap pretty.
From Stdlib Require Import Ascii ZArith Lia.

Local Open Scope Z_scope.
Local Open Scope string_scope.
Local Open Scope list_scope.

(* ================================================================= *)
(** ** Python string builtins used by [main.py] *)

Module Py.

(** [str.isspace] on one character, for the code points below 256:
    TAB, LF, VT, FF, CR, the four separators FS, GS, RS, US, the space,
    NEL (0x85) and the no-break space (0xA0). *)
Definition isspace (c : ascii) : bool :=
  match c with
  | "009" | "010" | "011" | "012" | "013"
  | "028" | "029" | "030" | "031"
  | " " | "133" | "160" => true
  | _ => false
  end%char.

(** Does [s] begin inside a token (with a character that is not
    whitespace)? *)
Definition starts_token (s : string) : bool :=
  match s with
  | "" => false
  | String d _ => negb (isspace d)
  end.

(** [s.split()] with no argument: cut at runs of whitespace, no empty
    token, nothing for leading or trailing whitespace.  A character
    that is not whitespace either continues the token that starts the
    rest of the string or is a token of its own. *)
Fixpoint split (s : string) : list string :=
  match s with
  | "" => []
  | String c s' =>
      if isspace c then split s'
      else if starts_token s' then
        match split s' with
        | t :: ts => String c t :: ts
        | [] => [String c ""]
        end
      else String c "" :: split s'
  end.

(** [sep.join(l)]. *)
Fixpoint join (sep : string) (l : list string) : string :=
  match l with
  | [] => ""
  | [t] => t
  | t :: ts => t +:+ sep +:+ join sep ts
  end.

(** [s[:n]] for [n >= 0]. *)
Fixpoint slice_to (n : nat) (s : string) : string :=
  match n, s with
  | S n', String c s' => String c (slice_to n' s')
  | _, _ => ""
  end.

(** [s.startswith(p)]. *)
Fixpoint startswith (p s : string) : bool :=
  match p, s with
  | "", _ => true
  | String a p', String b s' => if decide (a = b) then startswith p' s' else false
  | String _ _, "" => false
  end.

(** [p in s]. *)
Fixpoint contains (p s : string) : bool :=
  startswith p s ||
  match s with
  | "" => false
  | String _ s' => contains p s'
  end.

(** [s.replace(old, new)] for a non-empty [old]: scan from the left; at
    an occurrence of [old] emit [new] and skip the occurrence
    ([skip] counts the characters of it still to pass). *)
Fixpoint replace_from (old new : string) (skip : nat) (s : string) : string :=
  match s with
  | "" => ""
  | String c s' =>
      match skip with
      | S k => replace_from old new k s'
      | O =>
          if startswith old s
          then new +:+ replace_from old new (Nat.pred (String.length old)) s'
          else String c (replace_from old new O s')
      end
  end.

(** With an empty [old], Python puts [new] before every character and
    at the end. *)
Fixpoint intersperse (new s : string) : string :=
  match s with
  | "" => new
  | String c s' => new +:+ String c (intersperse new s')
  end.

Definition replace (old new s : string) : string :=
  match old with
  | "" => intersperse new s
  | _ => replace_from old new O s
  end.

(** [str.lower] on one character: A-Z, and the upper-case letters of
    Latin-1 (0xC0-0xDE but the multiplication sign 0xD7). *)
Definition lower_char (c : ascii) : ascii :=
  let n := nat_of_ascii c in
  if ((65 <=? n) && (n <=? 90))%nat then ascii_of_nat (n + 32)
  else if ((192 <=? n) && (n <=? 222) && negb (n =? 215))%nat
       then ascii_of_nat (n + 32)
  else c.

Fixpoint lower (s : string) : string :=
  match s with
  | "" => ""
  | String c s' => String (lower_char c) (lower s')
  end.

End Py.

(* ================================================================= *)
(** ** The pure stages *)

(** A search result as the search API returns it. *)
Abbreviation SearchResult := (gmap string string).

(** [extract_keywords]: [query.split()]. *)
Definition extract_keywords (query : string) : list string :=
  Py.split query.

(** [generate_search_query]: [' '.join(keywords)]. *)
Definition generate_search_query (keywords : list string) : string :=
  Py.join " " keywords.

(** [evaluate_and_filter_results]: [results[:10]]. *)
Definition evaluate_and_filter_results {A} (results : list A) : list A :=
  take 10 results.

(** [render_latex]: three chained [str.replace] calls. *)
Definition render_latex (text : string) : string :=
  Py.replace "$$" "\]" (Py.replace "$$" "\[" (Py.replace "$" "\(" text)).

(* ================================================================= *)
(** ** Exceptions and outcomes *)

(** The three classes of exception that the handlers of [main.py] tell
    apart.  [Exception msg] is any other exception [e], with
    [str(e) = msg]. *)
Inductive exn :=
| WebSocketDisconnect
| HTTPStatusError (status_code : Z) (text : string)
| Exception (msg : string).

(** [IndexError] of a list subscript and [KeyError] of a dict
    subscript, with the text [str(e)] gives. *)
Definition IndexError : exn := Exception "list index out of range".
Definition KeyError (key : string) : exn := Exception ("'" +:+ key +:+ "'").

Inductive outcome (A : Type) :=
| Return (a : A)
| Raise (e : exn).
Arguments Return {A} a.
Arguments Raise {A} e.

(** [d[key]] on a dict. *)
Definition getitem {V} (d : gmap string V) (key : string) : outcome V :=
  match d !! key with
  | Some v => Return v
  | None => Raise (KeyError key)
  end.

(** [l[0]] on a list. *)
Definition first {A} (l : list A) : outcome A :=
  match l !! 0%nat with
  | Some x => Return x
  | None => Raise IndexError
  end.

(* ================================================================= *)
(** ** The network: requests, responses and the monad [Net] *)

(** A value of the [params] dict of a GET. *)
Inductive param :=
| PStr (s : string)
| PInt (n : Z).

(** What the service asks of the outside world through [httpx] and
    through the generative model. *)
Inductive call :=
| Get (url : string) (params : list (string * param))
| GenerateContent (contents : string).

(** An [httpx] response: status, decoded body, and the body parsed as
    JSON at the shape the caller reads ([J]); a body of another shape is
    outside the model. *)
Record Response (J : Type) := mkResponse {
  status_code : Z;
  text : string;
  json : J
}.
Arguments mkResponse {J}.
Arguments status_code {J}.
Arguments text {J}.
Arguments json {J}.

(** A computation that calls the outside world: its result, and the
    calls it made, oldest first. *)
Definition Net (A : Type) : Type := outcome A * list call.

#[export] Instance Net_ret : MRet Net := λ A a, (Return a, []).
#[export] Instance Net_bind : MBind Net := λ A B f c,
  match c.1 with
  | Return a => let r := f a in (r.1, c.2 ++ r.2)
  | Raise e => (Raise e, c.2)
  end.

Definition net_raise {A} (e : exn) : Net A := (Raise e, []).
Definition net_lift {A} (r : outcome A) : Net A := (r, []).
Definition net_call {A} (c : call) (answer : A) : Net A := (Return answer, [c]).

(** A list comprehension or [for] loop whose body may raise. *)
Fixpoint net_for {A B} (f : A → Net B) (l : list A) : Net (list B) :=
  match l with
  | [] => mret []
  | x :: l' => y ← f x; ys ← net_for f l'; mret (y :: ys)
  end.

(** [response.raise_for_status()]: [HTTPStatusError] unless the status
    is 2xx. *)
Definition is_success (status : Z) : bool :=
  ((200 <=? status) && (status <=? 299))%Z.

Definition raise_for_status {J} (response : Response J) : Net unit :=
  if is_success (status_code response) then mret ()
  else net_raise (HTTPStatusError (status_code response) (text response)).

(** [Config] and the collaborators.  Every oracle is a function of the
    request alone. *)
Record World := mkWorld {
  GOOGLE_API_KEY : string;
  CUSTOM_SEARCH_ENGINE_ID : string;
  (** the search API, by the [params] of the GET; [json] is the
      [items] member when the answer has one *)
  search_api : list (string * param) → Response (option (list SearchResult));
  (** any web page, by URL, redirects followed *)
  web : string → Response unit;
  (** [BeautifulSoup(html, 'html.parser').find_all('p')], each with
      [get_text()] *)
  find_all_p : string → list string;
  (** the encyclopedia search, by URL; [json] is the list of the
      [pageid] of [query.search] *)
  wiki_search : string → Response (list Z);
  (** the encyclopedia extract, by URL; [json] maps a key of
      [query.pages] to its [extract] *)
  wiki_extract : string → Response (gmap string string);
  (** [model.generate_content(contents).text], or the message of the
      exception it raises *)
  generate_content : string → string + string
}.

(* ================================================================= *)
(** ** The stages that call the outside world *)

Section Stages.
Context (w : World).

(** The two characters of a blank line. *)
Definition blank_line : string := String "010" (String "010" "").

(** [perform_search]: one GET of the search API; the [items] of the
    answer, or [[]]. *)
Definition search_url : string := "https://www.googleapis.com/customsearch/v1".

Definition perform_search (search_query : string) (page : Z)
  : Net (list SearchResult) :=
  let api_key := GOOGLE_API_KEY w in
  let cx := CUSTOM_SEARCH_ENGINE_ID w in
  let params := [("key", PStr api_key); ("cx", PStr cx);
                 ("q", PStr search_query);
                 ("start", PInt ((page - 1) * 10 + 1))] in
  response ← net_call (Get search_url params) (search_api w params);
  _ ← raise_for_status response;
  let search_results := json response in
  mret (default [] search_results).

(** [fetch_content]: GET of one page; blocked pages and error statuses
    raise.  The choice of the character encoding is not modelled:
    [text] is the decoded body. *)
Definition fetch_content (url : string) : Net string :=
  response ← net_call (Get url []) (web w url);
  if (status_code response =? 403)%Z
       && Py.contains "cloudflare" (Py.lower (text response))
  then net_raise (Exception "Blocked by Cloudflare")
  else
    _ ← raise_for_status response;
    mret (text response).

(** [parse_content]: the text of the paragraphs, joined by a space. *)
Definition parse_content (html_content : string) : string :=
  Py.join " " (find_all_p w html_content).

(** [fetch_wikipedia_content]: search, then the extract of the first
    hit; [""] when there is no hit. *)
Definition fetch_wikipedia_content (keywords : list string) : Net string :=
  let search_url :=
    "https://en.wikipedia.org/w/api.php?action=query&list=search&srsearch="
    +:+ Py.join " " keywords +:+ "&utf8=&format=json" in
  response ← net_call (Get search_url []) (wiki_search w search_url);
  _ ← raise_for_status response;
  let search_results := json response in
  match search_results with
  | page_id :: _ =>
      let page_url :=
        "https://en.wikipedia.org/w/api.php?action=query&prop=extracts&explaintext&format=json&pageids="
        +:+ pretty page_id in
      page_response ← net_call (Get page_url []) (wiki_extract w page_url);
      _ ← raise_for_status page_response;
      let page_content := json page_response in
      net_lift (getitem page_content (pretty page_id))
  | [] => mret ""
  end.

(** The loop of [summarize_results] over the sources. *)
Fixpoint fetch_sources (content_to_summarize : string) (sources : list string)
  : Net string :=
  match sources with
  | [] => mret content_to_summarize
  | source :: sources' =>
      html_content ← fetch_content source;
      fetch_sources
        (content_to_summarize +:+ parse_content html_content +:+ blank_line)
        sources'
  end.

(** [summarize_results]. *)
Definition summarize_results (results : list SearchResult)
  : Net (string * list string) :=
  let content_to_summarize := "" in
  sources ← net_for (λ result, net_lift (getitem result "link")) (take 3 results);
  content_to_summarize ← fetch_sources content_to_summarize sources;
  top ← net_lift (first results);
  title ← net_lift (getitem top "title");
  wikipedia_content ← fetch_wikipedia_content (extract_keywords title);
  let content_to_summarize :=
    content_to_summarize +:+ wikipedia_content +:+ blank_line in
  response_text ←
    match generate_content w content_to_summarize with
    | inl response_text => net_call (GenerateContent content_to_summarize) response_text
    | inr msg => (Raise (Exception msg), [GenerateContent content_to_summarize])
    end;
  let summary := Py.slice_to 300 response_text in
  let summary := render_latex summary in
  mret (summary, sources).

(** The public view of a result: [link], [title] and [snippet]. *)
Record GoogleResult := mkGoogleResult {
  link : string;
  title : string;
  snippet : string
}.

Definition google_result (result : SearchResult) : outcome GoogleResult :=
  match getitem result "link" with
  | Raise e => Raise e
  | Return link =>
      match getitem result "title" with
      | Raise e => Raise e
      | Return title =>
          match getitem result "snippet" with
          | Raise e => Raise e
          | Return snippet => Return (mkGoogleResult link title snippet)
          end
      end
  end.

Definition google_results (filtered_results : list SearchResult)
  : Net (list GoogleResult) :=
  net_for (λ result, net_lift (google_result result)) filtered_results.

(** *** POST /search *)

(** What the caller of POST /search gets: the body of the success, or
    the [HTTPException] that the framework turns into an error
    response. *)
Inductive reply :=
| Reply (status : string) (result : string) (sources : list string)
        (googleResults : list GoogleResult)
| HTTPException (status_code : Z) (detail : string).

Definition search_body (query : string) (page : Z) : Net reply :=
  let keywords := extract_keywords query in
  let search_query := generate_search_query keywords in
  search_results ← perform_search search_query page;
  let filtered_results := evaluate_and_filter_results search_results in
  '(summary, sources) ← summarize_results filtered_results;
  googleResults ← google_results filtered_results;
  mret (Reply "Completed" summary sources googleResults).

(** The two [except] clauses of [search].  No stage of [search_body]
    raises [WebSocketDisconnect]; it would be an [Exception] with an
    empty text. *)
Definition search_except (e : exn) : reply :=
  match e with
  | HTTPStatusError status_code text => HTTPException status_code text
  | Exception msg => HTTPException 500 msg
  | WebSocketDisconnect => HTTPException 500 ""
  end.

(** [search]: the [try] around [search_body]. *)
Definition search (query : string) (page : Z) : Net reply :=
  let r := search_body query page in
  match r.1 with
  | Return v => (Return v, r.2)
  | Raise e => (Return (search_except e), r.2)
  end.

End Stages.

(* ================================================================= *)
(** ** The WebSocket transport *)

Inductive WebSocketState := CONNECTING | CONNECTED | DISCONNECTED.

#[export] Instance WebSocketState_eq_dec : EqDecision WebSocketState.
Proof. solve_decision. Defined.

(** The JSON objects that [websocket_search] sends. *)
Inductive message :=
| Status (status : string)
| GoogleResultsReady (googleResults : list GoogleResult)
| Completed (result : string) (sources : list string)
| Error (detail : string).

(** The ["status"] member of a message. *)
Definition status (m : message) : string :=
  match m with
  | Status status => status
  | GoogleResultsReady _ => "Google results ready"
  | Completed _ _ => "Completed"
  | Error _ => "Error"
  end.

(** The message of the client, at the shape that the [SearchQuery]
    model and [data.get("page", 1)] read: a [query] and maybe a
    [page]. *)
Record ClientMessage := mkClientMessage {
  query : string;
  page : option Z
}.

(** What [send_json] does once the peer is gone: the framework drops
    the message and returns, or it raises [e] and leaves
    [client_state] at [st]. *)
Inductive closed_send :=
| Dropped
| Raises (e : exn) (st : WebSocketState).

(** The peer of one connection.
    - [ws_message]: the message it sends, or [None] when it leaves
      before sending one ([receive_json] then raises
      [WebSocketDisconnect] and [client_state] is [DISCONNECTED]);
    - [ws_alive]: how many messages of the server it stays for
      ([None]: for all of them);
    - [ws_closed_send]: what a [send_json] does after that. *)
Record Peer := mkPeer {
  ws_message : option ClientMessage;
  ws_alive : option nat;
  ws_closed_send : closed_send
}.

(** What a run of [websocket_search] does, in order; [ECalls cs] is
    one stage, with the calls it made. *)
Inductive event :=
| EAccept
| EReceive
| ESend (m : message) (delivered : bool)
| EClose
| EPrint (line : string)
| ECalls (cs : list call).

(** The state of a run: the events so far (oldest first), the number
    of [send_json] calls so far, and [websocket.client_state]. *)
Record state := mkState {
  trace : list event;
  sent : nat;
  client_state : WebSocketState
}.

Definition M (A : Type) : Type := state → outcome A * state.

#[export] Instance M_ret : MRet M := λ A a s, (Return a, s).
#[export] Instance M_bind : MBind M := λ A B f c s,
  match c s with
  | (Return a, s') => f a s'
  | (Raise e, s') => (Raise e, s')
  end.

Definition emit (e : event) (s : state) : state :=
  mkState (trace s ++ [e]) (sent s) (client_state s).

(** A stage that only calls the outside world. *)
Definition lift {A} (c : Net A) : M A := λ s,
  (c.1, emit (ECalls c.2) s).

(** [try: body / except e: handler e]. *)
Definition try_except {A} (body : M A) (handler : exn → M A) : M A := λ s,
  match body s with
  | (Return a, s') => (Return a, s')
  | (Raise e, s') => handler e s'
  end.

(** [try: body / finally: cleanup]. *)
Definition try_finally {A} (body : M A) (cleanup : M unit) : M A := λ s,
  match body s with
  | (r, s') =>
      match cleanup s' with
      | (Return _, s'') => (r, s'')
      | (Raise e, s'') => (Raise e, s'')
      end
  end.

Section WebSocket.
Context (w : World) (p : Peer).

(** Is the peer still there when the server has sent it [k]
    messages? *)
Definition alive (k : nat) : bool :=
  match ws_alive p with
  | None => true
  | Some n => (k <? n)%nat
  end.

(** [websocket.accept()]; in the model it does not raise. *)
Definition accept : M unit := λ s,
  (Return (), mkState (trace s ++ [EAccept]) (sent s) CONNECTED).

(** [websocket.receive_json()]. *)
Definition receive_json : M ClientMessage := λ s,
  match ws_message p with
  | Some data => (Return data, emit EReceive s)
  | None =>
      (Raise WebSocketDisconnect,
       mkState (trace s ++ [EReceive]) (sent s) DISCONNECTED)
  end.

(** [websocket.send_json(m)]. *)
Definition send_json (m : message) : M unit := λ s,
  let s' := mkState (trace s ++ [ESend m (alive (sent s))]) (S (sent s))
                    (client_state s) in
  if alive (sent s) then (Return (), s')
  else match ws_closed_send p with
       | Dropped => (Return (), s')
       | Raises e st => (Raise e, mkState (trace s') (sent s') st)
       end.

(** [websocket.close()].  The model only records the call and marks
    the connection released.  The state machine of the framework is
    not modelled: what [close()] raises when a send has failed before
    it, and what [client_state] is after it, are outside the model. *)
Definition close : M unit := λ s,
  (Return (), mkState (trace s ++ [EClose]) (sent s) DISCONNECTED).

(** [print(line)]. *)
Definition print (line : string) : M unit := λ s,
  (Return (), emit (EPrint line) s).

(** The body of the [try] of [websocket_search]. *)
Definition websocket_search_body : M unit :=
  data ← receive_json;
  let query := query data in
  let page := default 1 (page data) in
  _ ← send_json (Status "Extracting keywords...");
  let keywords := extract_keywords query in
  _ ← send_json (Status "Generating search query...");
  let search_query := generate_search_query keywords in
  _ ← send_json (Status "Performing search...");
  search_results ← lift (perform_search w search_query page);
  _ ← send_json (Status "Evaluating and filtering results...");
  let filtered_results := evaluate_and_filter_results search_results in
  googleResults ← lift (google_results filtered_results);
  _ ← send_json (GoogleResultsReady googleResults);
  _ ← send_json (Status "Summarizing results...");
  '(summary, sources) ← lift (summarize_results w filtered_results);
  send_json (Completed summary sources).

(** Its three [except] clauses. *)
Definition websocket_search_except (e : exn) : M unit :=
  match e with
  | WebSocketDisconnect => print "WebSocket disconnected"
  | HTTPStatusError status_code text =>
      _ ← print ("HTTP error: " +:+ pretty status_code +:+ " - " +:+ text);
      send_json (Error text)
  | Exception msg =>
      _ ← print ("Unexpected error: " +:+ msg);
      send_json (Error msg)
  end.

(** Its [finally] clause. *)
Definition websocket_search_finally : M unit := λ s,
  match client_state s with
  | DISCONNECTED => (Return (), s)
  | _ => close s
  end.

Definition websocket_search : M unit :=
  _ ← accept;
  try_finally (try_except websocket_search_body websocket_search_except)
              websocket_search_finally.

End WebSocket.

(** A run starts with nothing done, on a connection not yet accepted. *)
Definition start : state := mkState [] 0 CONNECTING.

(** The messages that [send_json] was called with, with whether each
    was delivered, and the labels of those delivered. *)
Definition sends (tr : list event) : list (message * bool) :=
  omap (λ e, match e with ESend m d => Some (m, d) | _ => None end) tr.

Definition delivered (tr : list event) : list message :=
  omap (λ e, match e with ESend m true => Some m | _ => None end) tr.

Definition calls (tr : list event) : list call :=
  tr ≫= λ e, match e with ECalls cs => cs | _ => [] end.

(* ================================================================= *)
(** ** Notions that the properties are stated with *)

(** Only whitespace (or nothing at all). *)
Fixpoint blank (s : string) : bool :=
  match s with
  | "" => true
  | String c s' => Py.isspace c && blank s'
  end.

(** No whitespace character. *)
Fixpoint no_space (s : string) : bool :=
  match s with
  | "" => true
  | String c s' => negb (Py.isspace c) && no_space s'
  end.

(** A token: not empty, no whitespace. *)
Definition is_token (t : string) : bool := Py.starts_token t && no_space t.

(** Every whitespace character is a space that a token follows. *)
Fixpoint single_spaced (s : string) : bool :=
  match s with
  | "" => true
  | String c s' =>
      (if Py.isspace c then bool_decide (c = " "%char) && Py.starts_token s'
       else true)
      && single_spaced s'
  end.

(** Whitespace-normalized: tokens separated by one space each, nothing
    before the first or after the last. *)
Definition ws_normalized (s : string) : bool :=
  match s with
  | "" => true
  | String _ _ => Py.starts_token s && single_spaced s
  end.

(** The number of occurrences of the character [c]. *)
Fixpoint count_char (c : ascii) (s : string) : nat :=
  match s with
  | "" => 0%nat
  | String d s' => ((if decide (c = d) then 1 else 0) + count_char c s')%nat
  end.

(** [s * n]. *)
Fixpoint repeat_str (s : string) (n : nat) : string :=
  match n with
  | O => ""
  | S n' => s +:+ repeat_str s n'
  end.

(** The parameters of the GET that [perform_search] sends. *)
Definition search_params (w : World) (search_query : string) (page : Z)
  : list (string * param) :=
  [("key", PStr (GOOGLE_API_KEY w)); ("cx", PStr (CUSTOM_SEARCH_ENGINE_ID w));
   ("q", PStr search_query); ("start", PInt ((page - 1) * 10 + 1))].

(** The [link] of each of the first three results. *)
Definition links (results : list SearchResult) : list (option string) :=
  (λ result : SearchResult, result !! "link") <$> take 3 results.

Definition returns {A} (r : outcome A) : bool :=
  match r with
  | Return _ => true
  | Raise _ => false
  end.

(* ================================================================= *)
(** ** A small world for the examples *)

Definition demo_result (name : string) : SearchResult :=
  {[ "link" := "https://example.org/" +:+ name;
     "title" := "Page " +:+ name;
     "snippet" := "About " +:+ name ]}.

Definition demo_items : list SearchResult :=
  [demo_result "a"; demo_result "b"; demo_result "c"].

(** A world whose search API answers [found], whose pages are [pages],
    whose encyclopedia has one article, and whose model answers
    [answer]. *)
Definition demo_world (found : Response (option (list SearchResult)))
    (pages : string → Response unit) (answer : string) : World :=
  mkWorld "key" "cx" (λ _, found) pages (λ html_content, [html_content])
    (λ _, mkResponse 200 "" [42])
    (λ _, mkResponse 200 "" {[ "42" := "An extract." ]})
    (λ _, inl answer).

Definition page_ok (url : string) : Response unit := mkResponse 200 url ().

(** Every page is there but [https://example.org/a]. *)
Definition page_a_gone (url : string) : Response unit :=
  if decide (url = "https://example.org/a") then mkResponse 404 "gone" ()
  else mkResponse 200 url ().

(** The status labels that reached the peer, and those of every
    message that [send_json] was called with. *)
Definition labels (tr : list event) : list string := status <$> delivered tr.

Definition attempted_labels (tr : list event) : list string :=
  status <$> (sends tr).*1.

(** The peer sends its message and stays for at least [k] messages of
    the server. *)
Definition stays (p : Peer) (k : nat) : bool :=
  match ws_alive p with
  | None => true
  | Some n => (k <=? n)%nat
  end.

(** A client that asks for the example query and stays. *)
Definition demo_peer : Peer :=
  mkPeer (Some (mkClientMessage "solar eclipse 2026" None)) None Dropped.

(** A client that leaves once it has got three messages. *)
Definition leaving_peer (policy : closed_send) : Peer :=
  mkPeer (Some (mkClientMessage "solar eclipse 2026" None)) (Some 3%nat) policy.

(** The status labels of a run that completes, in order. *)
Definition completed_labels : list string :=
  ["Extracting keywords..."; "Generating search query...";
   "Performing search..."; "Evaluating and filtering results...";
   "Google results ready"; "Summarizing results..."; "Completed"].

(** The world of the example: three results, every page there, and a
    model that answers in twelve characters. *)
Definition eclipse_world : World :=
  demo_world (mkResponse 200 "" (Some demo_items)) page_ok "Eclipse 2026".

(** A world whose search API refuses the key. *)
Definition forbidden_world : World :=
  demo_world (mkResponse 403 "Forbidden" None) page_ok "".

(** A world whose search API finds nothing. *)
Definition empty_world : World :=
  demo_world (mkResponse 200 "" None) page_ok "".

(** The messages that were sent to a peer that was gone, and the
    number of calls of [websocket.close()]. *)
Definition lost (tr : list event) : list message :=
  omap (λ e, match e with ESend m false => Some m | _ => None end) tr.

Definition closes (tr : list event) : nat :=
  length (omap (λ e, match e with EClose => Some () | _ => None end) tr).

(* ================================================================= *)
(** ** Notions for the properties of the remaining code *)

(** [s] without its whitespace characters. *)
Fixpoint remove_space (s : string) : string :=
  match s with
  | "" => ""
  | String c s' =>
      if Py.isspace c then remove_space s' else String c (remove_space s')
  end.

(** The text that the loop of [summarize_results] gathers from the
    sources: the paragraphs of each page, each followed by a blank
    line. *)
Fixpoint pages_text (w : World) (sources : list string) : string :=
  match sources with
  | [] => ""
  | source :: sources' =>
      parse_content w (text (web w source)) +:+ blank_line
      +:+ pages_text w sources'
  end.

(** The URLs of the two calls of [fetch_wikipedia_content]. *)
Definition wiki_search_url (keywords : list string) : string :=
  "https://en.wikipedia.org/w/api.php?action=query&list=search&srsearch="
  +:+ Py.join " " keywords +:+ "&utf8=&format=json".

Definition wiki_extract_url (page_id : Z) : string :=
  "https://en.wikipedia.org/w/api.php?action=query&prop=extracts&explaintext&format=json&pageids="
  +:+ pretty page_id.

(** The exceptions that a stage can raise: an [HTTPStatusError] whose
    status is not 2xx, or an [Exception]. *)
Definition stage_exn (e : exn) : bool :=
  match e with
  | HTTPStatusError status_code _ => negb (is_success status_code)
  | Exception _ => true
  | WebSocketDisconnect => false
  end.

(** The labels of a run, whatever its end: the labels of a completed
    run up to some stage, and then maybe [Error]. *)
Definition run_labels (l : list string) : bool :=
  existsb (λ k, bool_decide (l = take k completed_labels)
                || bool_decide (l = take k completed_labels ++ ["Error"]))
          (seq 0 8).

(** The public view of a result that has its three keys. *)
Definition viewed (result : SearchResult) (g : GoogleResult) : Prop :=
  result !! "link" = Some (link g)
  ∧ result !! "title" = Some (title g)
  ∧ result !! "snippet" = Some (snippet g).

(** Every page is there but [https://example.org/a], which a
    protection service blocks. *)
Definition page_a_blocked (url : string) : Response unit :=
  if decide (url = "https://example.org/a")
  then mkResponse 403 "Attention Required! | CloudFlare" ()
  else mkResponse 200 url ().

(** A result of the search API without a link, and one without a
    title. *)
Definition no_link_result : SearchResult :=
  {[ "title" := "Page x"; "snippet" := "About x" ]}.

Definition no_title_result : SearchResult :=
  {[ "link" := "https://example.org/x"; "snippet" := "About x" ]}.

(** A stage that raises nothing but the exceptions of [stage_exn]. *)
Definition raises_stage_exn {A} (c : Net A) : Prop :=
  ∀ e, c.1 = Raise e → stage_exn e = true.

(** A result of the search API without a snippet, and a world that
    finds only this one. *)
Definition no_snippet_result : SearchResult :=
  {[ "link" := "https://example.org/x"; "title" := "Page x" ]}.

Definition no_snippet_world : World :=
  demo_world (mkResponse 200 "" (Some [no_snippet_result])) page_ok
    "Eclipse 2026".

(** A world whose encyclopedia is down, and one whose model refuses to
    answer. *)
Definition wiki_down_world : World :=
  mkWorld "key" "cx" (λ _, mkResponse 200 "" (Some demo_items)) page_ok
    (λ html_content, [html_content])
    (λ _, mkResponse 503 "Service Unavailable" [])
    (λ _, mkResponse 200 "" ∅)
    (λ _, inl "Eclipse 2026").

Definition model_down_world : World :=
  mkWorld "key" "cx" (λ _, mkResponse 200 "" (Some demo_items)) page_ok
    (λ html_content, [html_content])
    (λ _, mkResponse 200 "" [])
    (λ _, mkResponse 200 "" ∅)
    (λ _, inr "quota exceeded").

(* ================================================================= *)
(** ** The pure stages: examples and properties *)

Example split_ex : Py.split "  solar   eclipse
 2026 " = ["solar"; "eclipse"; "2026"].
Proof. reflexivity. Qed.

Example replace_ex : Py.replace "aa" "b" "aaaxaa" = "baxb".
Proof. reflexivity. Qed.

Example render_ex : render_latex "$$x$$ and $y$" = "\(\(x\(\( and \(y\(".
Proof. reflexivity. Qed.

Example eclipse_ex :
  generate_search_query (extract_keywords "solar eclipse 2026")
  = "solar eclipse 2026".
Proof. reflexivity. Qed.

(** *** Result filter *)

(** C6. [evaluate_and_filter_results] is total; its result has
    [min(10, len(results))] elements and is a prefix of [results], in
    the order of [results]: what it leaves out is [results[10:]]. *)
Theorem filter_is_prefix {A} (results : list A) :
  length (evaluate_and_filter_results results) = (10 `min` length results)%nat
  ∧ evaluate_and_filter_results results `prefix_of` results
  ∧ results = evaluate_and_filter_results results ++ drop 10 results.
Proof.
  unfold evaluate_and_filter_results. split; [apply length_take|].
  split.
  - exists (drop 10 results). symmetry. apply take_drop.
  - symmetry. apply take_drop.
Qed.

(** *** Keyword extractor and query builder *)

Section SplitJoin.

Lemma app_cons c (s r : string) : String c s +:+ r = String c (s +:+ r).
Proof. reflexivity. Qed.

Lemma app_empty_l (r : string) : "" +:+ r = r.
Proof. reflexivity. Qed.

Lemma app_empty_r (s : string) : s +:+ "" = s.
Proof. induction s as [|c s IH]; [done|]. by rewrite app_cons, IH. Qed.

Lemma join_cons2 sep t t' ts :
  Py.join sep (t :: t' :: ts) = t +:+ sep +:+ Py.join sep (t' :: ts).
Proof. reflexivity. Qed.

Lemma split_space c s : Py.isspace c = true → Py.split (String c s) = Py.split s.
Proof. intros H. simpl. by rewrite H. Qed.

Lemma split_not_blank s : blank s = false → Py.split s ≠ [].
Proof.
  induction s as [|c s IH]; simpl; [done|].
  destruct (Py.isspace c); simpl; [exact IH|].
  intros _. destruct (Py.starts_token s); [|done].
  by destruct (Py.split s).
Qed.

Lemma split_tokens s : Forall (λ t, is_token t = true) (Py.split s).
Proof.
  induction s as [|c s IH]; simpl; [constructor|].
  destruct (Py.isspace c) eqn:Hc; [exact IH|].
  assert (Hone : is_token (String c "") = true).
  { unfold is_token. simpl. by rewrite Hc. }
  destruct (Py.starts_token s).
  - destruct (Py.split s) as [|t ts]; [by repeat constructor|].
    inversion IH as [|? ? Ht Hts]; subst. constructor; [|done].
    unfold is_token in *. simpl. rewrite Hc. simpl.
    by apply andb_true_iff in Ht as [_ ->].
  - by constructor.
Qed.

(** A token at the front of a string, followed by the end or by
    whitespace, is the first token of the split. *)
Lemma split_token_app t r :
  is_token t = true → Py.starts_token r = false →
  Py.split (t +:+ r) = t :: Py.split r.
Proof.
  intros Ht Hr. induction t as [|c t IH]; [done|].
  unfold is_token in Ht. simpl in Ht.
  destruct (Py.isspace c) eqn:Hc; [done|]. simpl in Ht.
  rewrite app_cons. simpl. rewrite Hc.
  destruct t as [|d t].
  - rewrite app_empty_l, Hr. done.
  - simpl in Ht. destruct (Py.isspace d) eqn:Hd; [done|]. simpl in Ht.
    rewrite IH; [|unfold is_token; simpl; by rewrite Hd].
    rewrite app_cons. simpl. by rewrite Hd.
Qed.

Lemma split_join ts :
  Forall (λ t, is_token t = true) ts → Py.split (Py.join " " ts) = ts.
Proof.
  induction 1 as [|t ts Ht Hts IH]; [done|].
  destruct ts as [|t' ts].
  - simpl. rewrite <- (app_empty_r t) at 1. by rewrite split_token_app.
  - rewrite join_cons2, split_token_app by done.
    rewrite app_cons, app_empty_l, split_space by done. by rewrite IH.
Qed.

Lemma starts_token_app t r :
  Py.starts_token t = true → Py.starts_token (t +:+ r) = true.
Proof. by destruct t. Qed.

Lemma single_spaced_app t r :
  no_space t = true → single_spaced (t +:+ r) = single_spaced r.
Proof.
  induction t as [|c t IH]; [done|]. simpl.
  destruct (Py.isspace c) eqn:Hc; [done|]. simpl. intros Ht. by apply IH.
Qed.

Lemma single_spaced_space s :
  single_spaced (String " " s) = Py.starts_token s && single_spaced s.
Proof. reflexivity. Qed.

Lemma join_tokens_normalized ts :
  Forall (λ t, is_token t = true) ts → ws_normalized (Py.join " " ts) = true.
Proof.
  assert (Hstart : ∀ ts, Forall (λ t, is_token t = true) ts → ts ≠ [] →
            Py.starts_token (Py.join " " ts) = true).
  { intros [|t [|t' l]] Hl Hne; [done| |]; inversion Hl as [|? ? Ht _]; subst;
      apply andb_true_iff in Ht as [Ht _]; [done|].
    rewrite join_cons2. by apply starts_token_app. }
  assert (Hsp : ∀ ts, Forall (λ t, is_token t = true) ts →
            single_spaced (Py.join " " ts) = true).
  { induction 1 as [|t l Ht Hl IH]; [done|].
    pose proof Ht as Ht'. apply andb_true_iff in Ht' as [_ Hns].
    destruct l as [|t' l].
    - simpl. rewrite <- (app_empty_r t). by rewrite single_spaced_app.
    - rewrite join_cons2, single_spaced_app by done.
      rewrite app_cons, app_empty_l, single_spaced_space, IH.
      rewrite Hstart; done. }
  intros Hts. unfold ws_normalized.
  destruct (Py.join " " ts) eqn:E; [done|]. rewrite <- E.
  rewrite Hsp by done. rewrite Hstart; [done..|]. by intros ->.
Qed.

(** On a single-spaced string the split undoes nothing: joining gives
    the string back, but for the space it may start with. *)
Lemma join_split_single_spaced s :
  single_spaced s = true →
  (Py.starts_token s = true → Py.join " " (Py.split s) = s)
  ∧ (Py.starts_token s = false → s ≠ "" →
     " " +:+ Py.join " " (Py.split s) = s).
Proof.
  induction s as [|c s IH]; [done|]. simpl.
  destruct (Py.isspace c) eqn:Hc; simpl.
  - intros H. apply andb_true_iff in H as [H Hs].
    apply andb_true_iff in H as [Hsp Hst]. apply bool_decide_eq_true in Hsp as ->.
    split; [done|]. intros _ _. destruct (IH Hs) as [IH1 _].
    by rewrite IH1.
  - intros Hs. split; [|done]. intros _. destruct (IH Hs) as [IH1 IH2].
    destruct (Py.starts_token s) eqn:Hst.
    + specialize (IH1 eq_refl). destruct (Py.split s) as [|t ts] eqn:E.
      * simpl in IH1. by subst s.
      * rewrite <- IH1. by destruct ts.
    + destruct s as [|d s]; [done|]. specialize (IH2 eq_refl).
      rewrite <- IH2 at 2 by done.
      destruct (Py.split (String d s)) as [|t ts] eqn:E.
      * exfalso. simpl in IH2. specialize (IH2 ltac:(done)).
        injection IH2 as <- <-. simpl in Hs. done.
      * by rewrite join_cons2.
Qed.

End SplitJoin.

(** C7. A query that is not blank has at least one keyword; building
    the search query from the keywords of a query gives a string with
    the same keywords, whitespace-normalized; and on a query that is
    whitespace-normalized already, extracting and building is the
    identity. *)
Theorem extract_build_round_trip (query : string) :
  (blank query = false → (1 ≤ length (extract_keywords query))%nat)
  ∧ extract_keywords (generate_search_query (extract_keywords query))
    = extract_keywords query
  ∧ ws_normalized (generate_search_query (extract_keywords query)) = true
  ∧ (ws_normalized query = true →
     generate_search_query (extract_keywords query) = query).
Proof.
  unfold extract_keywords, generate_search_query. repeat split.
  - intros H%split_not_blank. destruct (Py.split query); [done|simpl; lia].
  - apply split_join, split_tokens.
  - apply join_tokens_normalized, split_tokens.
  - destruct query as [|c s]; [done|]. unfold ws_normalized.
    intros [Hst Hs]%andb_true_iff. by apply join_split_single_spaced.
Qed.

(** The round trip on the query of the example of the specification,
    and on a query with stray whitespace. *)
Lemma extract_build_round_trip_witness :
  (1 ≤ length (extract_keywords "solar eclipse 2026"))%nat
  ∧ generate_search_query (extract_keywords "solar eclipse 2026")
    = "solar eclipse 2026"
  ∧ extract_keywords "  solar   eclipse 2026 " = ["solar"; "eclipse"; "2026"].
Proof.
  pose proof (extract_build_round_trip "solar eclipse 2026") as (H1 & _ & _ & H4).
  split; [by apply H1|]. split; [by apply H4|]. reflexivity.
Defined.

(** *** The notation-escaping pass *)

Section RenderLatex.

Lemma length_string_app (s r : string) :
  String.length (s +:+ r) = (String.length s + String.length r)%nat.
Proof. induction s as [|c s IH]; simpl; [done|]. by rewrite IH. Qed.

Lemma count_char_app c (s r : string) :
  count_char c (s +:+ r) = (count_char c s + count_char c r)%nat.
Proof. induction s as [|d s IH]; simpl; [done|]. rewrite IH. lia. Qed.

(** Replacing a one-character [old]: character by character. *)
Lemma replace_char_cons a new c s :
  Py.replace (String a "") new (String c s)
  = if decide (a = c) then new +:+ Py.replace (String a "") new s
    else String c (Py.replace (String a "") new s).
Proof. simpl. by destruct (decide (a = c)). Qed.

Lemma length_replace_char a new s :
  String.length (Py.replace (String a "") new s)
  = (String.length s - count_char a s + count_char a s * String.length new)%nat
  ∧ (count_char a s ≤ String.length s)%nat.
Proof.
  induction s as [|c s [IH1 IH2]]; [done|].
  rewrite replace_char_cons.
  cbn [String.length count_char]. destruct (decide (a = c)).
  - rewrite length_string_app, IH1. lia.
  - cbn [String.length]. rewrite IH1. lia.
Qed.

Lemma count_replace_char a new s :
  count_char a new = 0%nat →
  count_char a (Py.replace (String a "") new s) = 0%nat.
Proof.
  intros Hnew. induction s as [|c s IH]; [done|].
  rewrite replace_char_cons. destruct (decide (a = c)).
  - by rewrite count_char_app, Hnew, IH.
  - cbn [count_char]. by rewrite decide_False, IH.
Qed.

(** Where the first character of [old] does not occur, nothing is
    replaced. *)
Lemma replace_absent a old new s :
  count_char a s = 0%nat → Py.replace (String a old) new s = s.
Proof.
  induction s as [|c s IH]; [done|]. cbn [count_char].
  destruct (decide (a = c)); [done|]. intros Hs.
  simpl in *. rewrite decide_False by done. by rewrite IH.
Qed.

(** [render_latex] is its first [replace]: there is no [$] left for
    the other two. *)
Lemma render_latex_first text : render_latex text = Py.replace "$" "\(" text.
Proof.
  unfold render_latex.
  assert (H : count_char "$" (Py.replace "$" "\(" text) = 0%nat)
    by (apply count_replace_char; reflexivity).
  rewrite (replace_absent _ _ "\[") by done. by rewrite replace_absent.
Qed.

Lemma length_render_latex text :
  String.length (render_latex text)
  = (String.length text + count_char "$" text)%nat.
Proof.
  rewrite render_latex_first.
  destruct (length_replace_char "$" "\(" text) as [-> H].
  change (String.length "\(") with 2%nat. lia.
Qed.

Lemma length_slice_to n s : (String.length (Py.slice_to n s) ≤ n)%nat.
Proof.
  revert s. induction n as [|n IH]; intros [|c s]; simpl; try lia.
  specialize (IH s). lia.
Qed.

End RenderLatex.

(** C9. [render_latex] turns every [$] into [\(] and does nothing
    else: a block delimiter [$$] becomes [\(\(], not [\[] or [\]], and
    a closing [$] is an opening [\(] too. *)
Theorem render_latex_only_inline :
  (∀ text, render_latex text = Py.replace "$" "\(" text)
  ∧ render_latex "$$x$$" = "\(\(x\(\("
  ∧ Py.contains "\[" (render_latex "$$x$$") = false
  ∧ Py.contains "\]" (render_latex "$$x$$") = false.
Proof. split; [apply render_latex_first|]. by vm_compute. Qed.

(* ================================================================= *)
(** ** The stages that call the outside world: properties *)

(** Unfold the operations of [Net]. *)
Ltac net_unfold :=
  cbv [mbind Net_bind mret Net_ret net_call net_raise net_lift]; cbn [fst snd].

Section NetLemmas.
Context {A B : Type}.
Implicit Types (c : Net A) (f : A → Net B).

Lemma net_bind_return c f a :
  c.1 = Return a → c ≫= f = ((f a).1, c.2 ++ (f a).2).
Proof. unfold mbind, Net_bind. by intros ->. Qed.

Lemma net_bind_raise c f e : c.1 = Raise e → c ≫= f = (Raise e, c.2).
Proof. unfold mbind, Net_bind. by intros ->. Qed.

Lemma net_bind_inv c f b :
  (c ≫= f).1 = Return b → ∃ a, c.1 = Return a ∧ (f a).1 = Return b.
Proof.
  unfold mbind, Net_bind. destruct c.1 as [a|e]; [|done]. simpl. eauto.
Qed.

End NetLemmas.

(** *** Search client *)

(** C8. For a page number from 1 on, [perform_search] makes exactly
    one call, a GET of the search API whose [start] is
    [(page - 1) * 10 + 1] (at least 1); when the answer is a success it
    returns the [items] of the answer, or the empty list when there are
    none, and otherwise the error status is raised. *)
Theorem perform_search_one_call (w : World) (search_query : string) (page : Z) :
  (1 ≤ page)%Z →
  let params := search_params w search_query page in
  let response := search_api w params in
  (1 ≤ (page - 1) * 10 + 1)%Z
  ∧ (perform_search w search_query page).2 = [Get search_url params]
  ∧ (perform_search w search_query page).1
    = if is_success (status_code response)
      then Return (default [] (json response))
      else Raise (HTTPStatusError (status_code response) (text response)).
Proof.
  intros Hpage params response. split; [lia|].
  unfold perform_search. fold (search_params w search_query page).
  fold params. fold response. unfold raise_for_status. net_unfold.
  destruct (is_success (status_code response)); done.
Qed.

(** Page 1 of the query of the example: one call, with [start] 1,
    giving the items. *)
Lemma perform_search_one_call_witness :
  let w := demo_world (mkResponse 200 "" (Some demo_items)) page_ok "" in
  (1 ≤ (1 - 1) * 10 + 1)%Z
  ∧ (perform_search w "solar eclipse 2026" 1).2
    = [Get search_url [("key", PStr "key"); ("cx", PStr "cx");
                       ("q", PStr "solar eclipse 2026"); ("start", PInt 1)]]
  ∧ (perform_search w "solar eclipse 2026" 1).1 = Return demo_items.
Proof.
  exact (perform_search_one_call
           (demo_world (mkResponse 200 "" (Some demo_items)) page_ok "")
           "solar eclipse 2026" 1 ltac:(lia)).
Defined.

(** Without [items] in the answer the result is the empty list. *)
Example perform_search_no_items :
  perform_search (demo_world (mkResponse 200 "" None) page_ok "") "" 1
  = (Return [], [Get search_url [("key", PStr "key"); ("cx", PStr "cx");
                                 ("q", PStr ""); ("start", PInt 1)]]).
Proof. reflexivity. Qed.

(** *** Summarizer *)

Section Summarize.
Context (w : World).

Lemma net_for_links (l : list SearchResult) (sources : list string) :
  (λ result : SearchResult, result !! "link") <$> l = Some <$> sources →
  net_for (λ result, net_lift (getitem result "link")) l = (Return sources, []).
Proof.
  revert sources. induction l as [|r l IH]; intros [|u sources] H;
    simplify_eq/=; [done|].
  rewrite (IH sources) by done. unfold getitem. by rewrite H.
Qed.

Lemma fetch_content_calls url : (fetch_content w url).2 = [Get url []].
Proof.
  unfold fetch_content, raise_for_status. net_unfold.
  destruct (_ && _); [done|]. by destruct (is_success _).
Qed.

(** The loop stops at the first source whose fetch raises. *)
Lemma fetch_sources_raise content before url after e :
  Forall (λ u, returns (fetch_content w u).1 = true) before →
  (fetch_content w url).1 = Raise e →
  fetch_sources w content (before ++ url :: after)
  = (Raise e, (λ u, Get u []) <$> (before ++ [url])).
Proof.
  intros Hbefore Hurl. revert content.
  induction Hbefore as [|u before Hu _ IH]; intros content;
    cbn [fetch_sources app].
  - rewrite (net_bind_raise _ _ e) by done. by rewrite fetch_content_calls.
  - destruct (fetch_content w u).1 as [html|] eqn:E; [|done].
    rewrite (net_bind_return _ _ html) by done.
    by rewrite IH, fetch_content_calls.
Qed.

Lemma count_char_le c s : (count_char c s ≤ String.length s)%nat.
Proof. induction s as [|d s IH]; simpl; [done|]. destruct (decide _); lia. Qed.

End Summarize.

#[local] Arguments Py.slice_to : simpl never.

(** C2 (as the code has it). When [summarize_results] returns, the
    cap of 300 characters was put on the answer of the model before
    the notation-escaping pass: the summary is [render_latex] of the
    first 300 characters of the answer.  The pass can lengthen the
    text, and the summary has at most 600 characters, whatever the
    length of the answer. *)
Theorem summary_length (w : World) (results : list SearchResult)
    (summary : string) (sources : list string) :
  (summarize_results w results).1 = Return (summary, sources) →
  ∃ contents response_text,
    generate_content w contents = inl response_text
    ∧ summary = render_latex (Py.slice_to 300 response_text)
    ∧ (String.length (Py.slice_to 300 response_text) ≤ 300)%nat
    ∧ (String.length summary ≤ 600)%nat.
Proof.
  unfold summarize_results. intros H.
  apply net_bind_inv in H as (sources' & _ & H).
  apply net_bind_inv in H as (content & _ & H).
  apply net_bind_inv in H as (top & _ & H).
  apply net_bind_inv in H as (title & _ & H).
  apply net_bind_inv in H as (wikipedia_content & _ & H).
  apply net_bind_inv in H as (response_text & Hmodel & H).
  unfold mret, Net_ret in H. cbn [fst] in H. injection H as <- _.
  destruct (generate_content w _) as [text|msg] eqn:E; [|done].
  unfold net_call in Hmodel. cbn [fst] in Hmodel. injection Hmodel as ->.
  eexists _, response_text. split; [exact E|]. split; [done|].
  pose proof (length_slice_to 300 response_text).
  pose proof (count_char_le "$" (Py.slice_to 300 response_text)).
  rewrite length_render_latex. lia.
Qed.

(** An answer of 12 characters: the summary is within the bound. *)
Lemma summary_length_witness :
  ∃ contents response_text,
    generate_content (demo_world (mkResponse 200 "" (Some demo_items)) page_ok
                        "Eclipse 2026")
      contents = inl response_text
    ∧ "Eclipse 2026" = render_latex (Py.slice_to 300 response_text)
    ∧ (String.length (Py.slice_to 300 response_text) ≤ 300)%nat
    ∧ (String.length "Eclipse 2026" ≤ 600)%nat.
Proof.
  apply (summary_length
           (demo_world (mkResponse 200 "" (Some demo_items)) page_ok
              "Eclipse 2026")
           demo_items "Eclipse 2026"
           ["https://example.org/a"; "https://example.org/b";
            "https://example.org/c"]).
  vm_compute. reflexivity.
Defined.

(** C2, as stated, fails.  The model answers 150 times [$a]: 300
    characters, every [$] an inline delimiter on its own (no [$$]).
    The run succeeds, each [$] has become the two characters of the
    inline escape, and the summary has 450 characters. *)
Lemma summary_longer_than_cap :
  (summarize_results
     (demo_world (mkResponse 200 "" (Some demo_items)) page_ok
        (repeat_str "$a" 150))
     demo_items).1
  = Return (repeat_str "\(a" 150,
            ["https://example.org/a"; "https://example.org/b";
             "https://example.org/c"])
  ∧ String.length (repeat_str "$a" 150) = 300%nat
  ∧ Py.contains "$$" (repeat_str "$a" 150) = false
  ∧ String.length (repeat_str "\(a" 150) = 450%nat
  ∧ (300 < 450)%nat.
Proof. repeat (split; [by vm_compute|]). lia. Qed.

(** C3 (as the code has it). A fetch that raises for one of the first
    three sources is not isolated: [summarize_results] raises the same
    exception at once, having fetched the sources up to that one and
    nothing else (no later source, no encyclopedia, no model), and
    the synchronous run ends in the error response of that
    exception. *)
Theorem fetch_failure_aborts (w : World) (results : list SearchResult)
    (before : list string) (url : string) (after : list string) (e : exn) :
  links results = Some <$> (before ++ url :: after) →
  Forall (λ u, returns (fetch_content w u).1 = true) before →
  (fetch_content w url).1 = Raise e →
  summarize_results w results
  = (Raise e, (λ u, Get u []) <$> (before ++ [url]))
  ∧ ∀ query page search_results,
      (perform_search w (generate_search_query (extract_keywords query)) page).1
      = Return search_results →
      evaluate_and_filter_results search_results = results →
      (search w query page).1 = Return (search_except e).
Proof.
  intros Hlinks Hbefore Hurl.
  assert (Hsum : summarize_results w results
                 = (Raise e, (λ u, Get u []) <$> (before ++ [url]))).
  { pose proof (net_for_links _ _ Hlinks) as Hfor.
    pose proof (fetch_sources_raise w "" before url after e Hbefore Hurl)
      as Hloop.
    unfold summarize_results. cbv zeta.
    rewrite (net_bind_return _ _ (before ++ url :: after)) by (by rewrite Hfor).
    rewrite Hfor.
    rewrite (net_bind_raise _ _ e) by (by rewrite Hloop).
    by rewrite Hloop. }
  split; [done|]. intros query page search_results Hsearch Hfilter.
  unfold search, search_body.
  rewrite (net_bind_return _ _ search_results) by done. cbn [fst].
  rewrite Hfilter. rewrite (net_bind_raise _ _ e) by (by rewrite Hsum).
  done.
Qed.

(** The first source answers 404: it is the only page fetched, and
    POST /search answers 404. *)
Lemma fetch_failure_aborts_witness :
  summarize_results
    (demo_world (mkResponse 200 "" (Some demo_items)) page_a_gone "") demo_items
  = (Raise (HTTPStatusError 404 "gone"),
     (λ u, Get u []) <$> ([] ++ ["https://example.org/a"]))
  ∧ ∀ query page search_results,
      (perform_search
         (demo_world (mkResponse 200 "" (Some demo_items)) page_a_gone "")
         (generate_search_query (extract_keywords query)) page).1
      = Return search_results →
      evaluate_and_filter_results search_results = demo_items →
      (search (demo_world (mkResponse 200 "" (Some demo_items)) page_a_gone "")
         query page).1
      = Return (search_except (HTTPStatusError 404 "gone")).
Proof.
  apply (fetch_failure_aborts
    (demo_world (mkResponse 200 "" (Some demo_items)) page_a_gone "")
    demo_items [] "https://example.org/a"
    ["https://example.org/b"; "https://example.org/c"]
    (HTTPStatusError 404 "gone")).
  - vm_compute. reflexivity.
  - constructor.
  - vm_compute. reflexivity.
Defined.

(** C3, as stated, fails: the second and third sources answer 200, yet
    after the 404 of the first they are not fetched, the model is not
    called, and the run fails. *)
Lemma fetch_failure_not_isolated :
  (fetch_content
     (demo_world (mkResponse 200 "" (Some demo_items)) page_a_gone "")
     "https://example.org/b").1
  = Return "https://example.org/b"
  ∧ summarize_results
      (demo_world (mkResponse 200 "" (Some demo_items)) page_a_gone "")
      demo_items
    = (Raise (HTTPStatusError 404 "gone"), [Get "https://example.org/a" []])
  ∧ search (demo_world (mkResponse 200 "" (Some demo_items)) page_a_gone "")
      "solar eclipse" 1
    = (Return (HTTPException 404 "gone"),
       [Get search_url [("key", PStr "key"); ("cx", PStr "cx");
                        ("q", PStr "solar eclipse"); ("start", PInt 1)];
        Get "https://example.org/a" []]).
Proof. repeat split; by vm_compute. Qed.

(** *** Failures of the search API, and an empty result set *)

Lemma is_success_error status :
  (400 ≤ status ≤ 599)%Z → is_success status = false.
Proof. unfold is_success. lia. Qed.

Lemma perform_search_error (w : World) (search_query : string) (page : Z) :
  let response := search_api w (search_params w search_query page) in
  is_success (status_code response) = false →
  perform_search w search_query page
  = (Raise (HTTPStatusError (status_code response) (text response)),
     [Get search_url (search_params w search_query page)]).
Proof.
  intros response H. unfold perform_search.
  fold (search_params w search_query page). fold response.
  unfold raise_for_status. net_unfold. by rewrite H.
Qed.

Lemma summarize_results_empty (w : World) :
  summarize_results w [] = (Raise IndexError, []).
Proof. reflexivity. Qed.

(* ================================================================= *)
(** ** The streaming transport: properties *)

Lemma if_same {A} (b : bool) (x : A) : (if b then x else x) = x.
Proof. by destruct b. Qed.

(** Run [websocket_search] symbolically.  First the stages become
    unknown functions ([ps], [gr], [sm] and the pure ones) and the
    status messages unknown messages; then the transport is unfolded
    and every outcome that a step waits for is split, in the order of
    the run. *)
Ltac ws_abstract w :=
  cbv beta zeta delta [websocket_search websocket_search_body
                       websocket_search_except websocket_search_finally];
  remember (Status "Extracting keywords...") as m1 eqn:Hm1;
  remember (Status "Generating search query...") as m2 eqn:Hm2;
  remember (Status "Performing search...") as m3 eqn:Hm3;
  remember (Status "Evaluating and filtering results...") as m4 eqn:Hm4;
  remember (Status "Summarizing results...") as m6 eqn:Hm6;
  generalize (perform_search w), google_results, (summarize_results w),
    extract_keywords, generate_search_query,
    (@evaluate_and_filter_results SearchResult).

Ltac ws_unfold :=
  cbv [try_finally try_except accept receive_json send_json close print lift
       emit mbind M_bind mret M_ret start]; cbn.

Ltac ws_split ps gr sm flt :=
  match goal with
  | H : ps ?a ?b = _ |- context [ps ?a ?b] => rewrite H
  | H : flt ?a = _ |- context [flt ?a] => rewrite H
  | H : gr ?a = _ |- context [gr ?a] => rewrite H
  | H : sm ?a = _ |- context [sm ?a] => rewrite H
  | |- context [ps ?a ?b] => destruct (ps a b) as [[?items|?e] ?cs]
  | |- context [gr ?a] => destruct (gr a) as [[?g|?e] ?cs]
  | |- context [sm ?a] => destruct (sm a) as [[[?summary ?sources]|?e] ?cs]
  | |- context [alive ?p ?k] =>
      let b := eval cbv in (alive p k) in
      lazymatch b with
      | true => change (alive p k) with true
      | false => change (alive p k) with false
      end
  | |- _ => rewrite if_same
  | |- context [if alive ?p ?k then _ else _] => destruct (alive p k) eqn:?
  | |- context [match ?e with WebSocketDisconnect => _ | _ => _ end] =>
      destruct e as [| |]
  | |- context [match ?st with DISCONNECTED => _ | _ => _ end] =>
      destruct st as [| |]
  end.

Ltac ws_exec ps gr sm flt := ws_unfold; repeat (ws_split ps gr sm flt; cbn).

(** A peer that may leave: by the number of messages it stays for, up
    to the eight that a run can send. *)
Ltac nat_cases n k :=
  lazymatch k with
  | O => idtac
  | S ?k' => destruct n as [|n]; [|nat_cases n k']
  end.

(** A label that is not in a list of labels. *)
Ltac not_a_label H :=
  exfalso; repeat (apply elem_of_cons in H as [H|H]; [discriminate H|]);
  by apply elem_of_nil in H.

#[local] Arguments alive : simpl never.

(** C1. When the [Completed] message reaches the peer, the labels that
    reached it are the seven labels of a run, each once, in order,
    with [Completed] last; [send_json] was called for nothing else, and
    the handler returns. *)
Theorem streaming_labels (w : World) (p : Peer) :
  "Completed" ∈ labels (trace (websocket_search w p start).2) →
  labels (trace (websocket_search w p start).2) = completed_labels
  ∧ attempted_labels (trace (websocket_search w p start).2) = completed_labels
  ∧ (websocket_search w p start).1 = Return ().
Proof.
  destruct (websocket_search w p start) as [r s] eqn:E.
  revert E. destruct p as [[data|] [n|] [|e0 st]].
  all: ws_abstract w; intros ps gr sm ek gsq flt.
  all: ws_exec ps gr sm flt.
  all: intros [= <- <-]; subst; unfold alive; cbn [ws_alive fst snd trace].
  all: try (intros H; first [done | not_a_label H]).
  all: nat_cases n 8%nat; intros H; first [done | not_a_label H].
Qed.

(** The example run: every page is there and the peer stays. *)
Lemma streaming_labels_witness :
  labels (trace (websocket_search eclipse_world demo_peer start).2)
  = completed_labels
  ∧ attempted_labels (trace (websocket_search eclipse_world demo_peer start).2)
    = completed_labels
  ∧ (websocket_search eclipse_world demo_peer start).1 = Return ().
Proof.
  apply (streaming_labels eclipse_world demo_peer).
  vm_compute. do 6 apply list_elem_of_further. apply list_elem_of_here.
Defined.

(** *** Errors on the streaming transport *)

(** C4. When the search API answers with an error status, POST /search
    raises the [HTTPException] with that status and the body of the
    answer as its detail; and on the WebSocket, for a peer that is
    still there, the three status messages are followed by one [Error]
    message whose detail is that body: it is the last message, and the
    handler returns.  The search API was called once. *)
Theorem upstream_error_surfaced (w : World) (p : Peer) (data : ClientMessage) :
  let search_query := generate_search_query (extract_keywords (query data)) in
  let page := default 1 (page data) in
  let response := search_api w (search_params w search_query page) in
  (400 ≤ status_code response ≤ 599)%Z →
  ws_message p = Some data →
  stays p 4 = true →
  search w (query data) page
  = (Return (HTTPException (status_code response) (text response)),
     [Get search_url (search_params w search_query page)])
  ∧ (websocket_search w p start).1 = Return ()
  ∧ sends (trace (websocket_search w p start).2)
    = [(Status "Extracting keywords...", true);
       (Status "Generating search query...", true);
       (Status "Performing search...", true);
       (Error (text response), true)]
  ∧ calls (trace (websocket_search w p start).2)
    = [Get search_url (search_params w search_query page)].
Proof.
  intros search_query page' response Hstatus Hdata Hstays.
  pose proof (perform_search_error w search_query page'
                (is_success_error _ Hstatus)) as Hsearch.
  fold response in Hsearch. split.
  { unfold search, search_body. fold search_query.
    by rewrite (net_bind_raise _ _ _ (f_equal fst Hsearch)), Hsearch. }
  destruct (websocket_search w p start) as [r s] eqn:E.
  revert E. destruct p as [msg [n|] policy]; simpl in Hdata, Hstays; subst msg.
  1: do 4 (destruct n as [|n]; [done|]).
  all: clear Hstatus Hstays; subst search_query page'.
  all: generalize dependent (search_params w); intros params response Hsearch.
  all: generalize dependent (text response); intros body Hsearch.
  all: generalize dependent (status_code response); intros status Hsearch.
  all: revert Hsearch; ws_abstract w; intros ps gr sm ek gsq flt Hsearch.
  all: ws_exec ps gr sm flt.
  all: by intros [= <- <-]; subst.
Qed.

(** A 403 of the search API, for the example query. *)
Lemma upstream_error_surfaced_witness :
  search forbidden_world "solar eclipse 2026" 1
  = (Return (HTTPException 403 "Forbidden"),
     [Get search_url [("key", PStr "key"); ("cx", PStr "cx");
                      ("q", PStr "solar eclipse 2026"); ("start", PInt 1)]])
  ∧ (websocket_search forbidden_world demo_peer start).1 = Return ()
  ∧ sends (trace (websocket_search forbidden_world demo_peer start).2)
    = [(Status "Extracting keywords...", true);
       (Status "Generating search query...", true);
       (Status "Performing search...", true);
       (Error "Forbidden", true)]
  ∧ calls (trace (websocket_search forbidden_world demo_peer start).2)
    = [Get search_url [("key", PStr "key"); ("cx", PStr "cx");
                       ("q", PStr "solar eclipse 2026"); ("start", PInt 1)]].
Proof.
  exact (upstream_error_surfaced forbidden_world demo_peer
           (mkClientMessage "solar eclipse 2026" None)
           ltac:(vm_compute; split; discriminate) eq_refl eq_refl).
Defined.

(** C10. With no result left after the filter, [summarize_results]
    raises the [IndexError] of [results[0]] before any call, so the
    run ends in an error: POST /search raises the [HTTPException] 500
    with the text of the [IndexError]; on the WebSocket no [Completed]
    message is ever sent, and for a peer that is still there the last
    message is the [Error] with that text, after which the handler
    returns. *)
Theorem empty_results_error (w : World) (p : Peer) (data : ClientMessage) :
  let search_query := generate_search_query (extract_keywords (query data)) in
  let page := default 1 (page data) in
  (perform_search w search_query page).1 = Return [] →
  ws_message p = Some data →
  summarize_results w (evaluate_and_filter_results []) = (Raise IndexError, [])
  ∧ (search w (query data) page).1
    = Return (HTTPException 500 "list index out of range")
  ∧ ("Completed" ∉ attempted_labels (trace (websocket_search w p start).2))
  ∧ (stays p 7 = true →
     (websocket_search w p start).1 = Return ()
     ∧ sends (trace (websocket_search w p start).2)
       = [(Status "Extracting keywords...", true);
          (Status "Generating search query...", true);
          (Status "Performing search...", true);
          (Status "Evaluating and filtering results...", true);
          (GoogleResultsReady [], true);
          (Status "Summarizing results...", true);
          (Error "list index out of range", true)]).
Proof.
  intros search_query page' Hsearch Hdata.
  split; [reflexivity|]. split.
  { unfold search, search_body. fold search_query.
    by rewrite (net_bind_return _ _ _ Hsearch). }
  destruct (perform_search w search_query page') as [found cs] eqn:Hps.
  simpl in Hsearch. subst found search_query page'.
  assert (Hflt : evaluate_and_filter_results (@nil SearchResult) = []) by done.
  assert (Hgr : google_results [] = (Return [], [])) by done.
  pose proof (summarize_results_empty w) as Hsm.
  destruct (websocket_search w p start) as [r s] eqn:E.
  revert E. destruct p as [msg [n|] [|e0 st]]; simpl in Hdata; subst msg.
  all: revert Hps Hflt Hgr Hsm; ws_abstract w;
    intros ps gr sm ek gsq flt Hps Hflt Hgr Hsm.
  all: ws_exec ps gr sm flt.
  all: intros [= <- <-]; subst; unfold stays, alive; cbn [ws_alive fst snd trace].
  all: try (split; [intro Hin; not_a_label Hin|]).
  all: try done.
  all: unfold alive in *; cbn [ws_alive] in *.
  all: nat_cases n 8%nat; simpl in *; try done.
  all: split; [intro Hin; not_a_label Hin|done].
Qed.

(** The search API finds nothing for the example query. *)
Lemma empty_results_error_witness :
  summarize_results empty_world (evaluate_and_filter_results [])
  = (Raise IndexError, [])
  ∧ (search empty_world "solar eclipse 2026" 1).1
    = Return (HTTPException 500 "list index out of range")
  ∧ ("Completed"
     ∉ attempted_labels (trace (websocket_search empty_world demo_peer start).2))
  ∧ (stays demo_peer 7 = true →
     (websocket_search empty_world demo_peer start).1 = Return ()
     ∧ sends (trace (websocket_search empty_world demo_peer start).2)
       = [(Status "Extracting keywords...", true);
          (Status "Generating search query...", true);
          (Status "Performing search...", true);
          (Status "Evaluating and filtering results...", true);
          (GoogleResultsReady [], true);
          (Status "Summarizing results...", true);
          (Error "list index out of range", true)]).
Proof.
  exact (empty_results_error empty_world demo_peer
           (mkClientMessage "solar eclipse 2026" None) eq_refl eq_refl).
Defined.

(** *** A peer that leaves in the middle of a run *)

(** C5. The peer leaves when it has got the third message.
    - When a [send_json] on the closed connection raises (whatever it
      raises) and the search API answers 403, the [except] clause of
      the [HTTPStatusError] calls [send_json] itself: the exception of
      that call leaves [websocket_search].
    - When a [send_json] on the closed connection is dropped, the run
      goes on: four more messages are sent to the peer that is gone. *)
Theorem disconnect_mid_run (policy : closed_send) :
  match policy with
  | Raises e st =>
      (websocket_search forbidden_world (leaving_peer policy) start).1 = Raise e
      ∧ sends (trace (websocket_search forbidden_world (leaving_peer policy)
                        start).2)
        = [(Status "Extracting keywords...", true);
           (Status "Generating search query...", true);
           (Status "Performing search...", true);
           (Error "Forbidden", false)]
  | Dropped =>
      (websocket_search eclipse_world (leaving_peer policy) start).1 = Return ()
      ∧ (sends (trace (websocket_search eclipse_world (leaving_peer policy)
                         start).2)).*2
        = [true; true; true; false; false; false; false]
  end.
Proof. destruct policy as [|e [| |]]; by vm_compute. Qed.

(** The same, where the framework raises [WebSocketDisconnect] and
    keeps [client_state] at [CONNECTED]: the [finally] clause closes
    the connection, and the exception is not handled. *)
Example disconnect_mid_run_ex :
  websocket_search forbidden_world
    (leaving_peer (Raises WebSocketDisconnect CONNECTED)) start
  = (Raise WebSocketDisconnect,
     mkState
       [EAccept; EReceive;
        ESend (Status "Extracting keywords...") true;
        ESend (Status "Generating search query...") true;
        ESend (Status "Performing search...") true;
        ECalls [Get search_url [("key", PStr "key"); ("cx", PStr "cx");
                                ("q", PStr "solar eclipse 2026");
                                ("start", PInt 1)]];
        EPrint "HTTP error: 403 - Forbidden";
        ESend (Error "Forbidden") false;
        EClose]
       4 DISCONNECTED).
Proof. by vm_compute. Qed.

(* ================================================================= *)
(** ** Further properties of the pure stages *)

Section Keywords.

Lemma join_empty_cons c t ts :
  Py.join "" (String c t :: ts) = String c (Py.join "" (t :: ts)).
Proof. by destruct ts. Qed.

Lemma split_starts_token s : Py.starts_token s = true → Py.split s ≠ [].
Proof.
  destruct s as [|c s]; [done|]. simpl.
  destruct (Py.isspace c); [done|]. intros _.
  destruct (Py.starts_token s); [|done]. by destruct (Py.split s).
Qed.

Lemma join_split_remove_space s : Py.join "" (Py.split s) = remove_space s.
Proof.
  induction s as [|c s IH]; [done|]. simpl.
  destruct (Py.isspace c); [done|]. rewrite <- IH.
  destruct (Py.starts_token s) eqn:Hs.
  - apply split_starts_token in Hs.
    destruct (Py.split s) as [|t ts]; [done|]. apply join_empty_cons.
  - by destruct (Py.split s).
Qed.

Lemma split_blank s : blank s = true → Py.split s = [].
Proof.
  induction s as [|c s IH]; [done|]. simpl.
  destruct (Py.isspace c); [exact IH|done].
Qed.

End Keywords.

(** X1. The keywords of a query are its maximal runs of characters
    that are not whitespace: every keyword is a token (not empty, no
    whitespace), there is no keyword exactly when the query is blank,
    and the keywords put end to end are the query without its
    whitespace. *)
Theorem keywords_are_the_tokens (query : string) :
  Forall (λ t, is_token t = true) (extract_keywords query)
  ∧ (extract_keywords query = [] ↔ blank query = true)
  ∧ Py.join "" (extract_keywords query) = remove_space query.
Proof.
  unfold extract_keywords. split; [apply split_tokens|]. split.
  - split; [|apply split_blank].
    intros H. destruct (blank query) eqn:E; [done|].
    by apply split_not_blank in E.
  - apply join_split_remove_space.
Qed.

(** X2. [render_latex] leaves no [$] in its result, changes nothing in
    a text without [$], and so does nothing when it is applied a
    second time. *)
Theorem render_latex_idempotent (text : string) :
  count_char "$" (render_latex text) = 0%nat
  ∧ (count_char "$" text = 0%nat → render_latex text = text)
  ∧ render_latex (render_latex text) = render_latex text.
Proof.
  assert (H0 : count_char "$" (render_latex text) = 0%nat).
  { rewrite render_latex_first. apply count_replace_char. reflexivity. }
  assert (Hid : ∀ t, count_char "$" t = 0%nat → render_latex t = t).
  { intros t Ht. rewrite render_latex_first. by apply replace_absent. }
  split; [done|]. split; [apply Hid|]. by apply Hid.
Qed.

(* ================================================================= *)
(** ** Further properties of the stages that call the outside world *)

Section FetchContent.
Context (w : World).

Lemma lower_empty p : Py.lower p = "" → p = "".
Proof. by destruct p. Qed.

Lemma startswith_lower p s :
  Py.startswith p s = true → Py.startswith (Py.lower p) (Py.lower s) = true.
Proof.
  revert s. induction p as [|a p IH]; intros [|b s]; simpl; try done.
  destruct (decide (a = b)) as [->|]; [|done]. intros H.
  rewrite decide_True by done. by apply IH.
Qed.

Lemma contains_lower p s :
  Py.contains p s = true → Py.contains (Py.lower p) (Py.lower s) = true.
Proof.
  induction s as [|b s IH]; simpl.
  - rewrite !orb_false_r. apply (startswith_lower p "").
  - intros [H|H]%orb_true_iff; apply orb_true_iff.
    + left. apply (startswith_lower p (String b s) H).
    + right. by apply IH.
Qed.

Lemma fetch_content_eq url :
  fetch_content w url
  = (if (status_code (web w url) =? 403)%Z
          && Py.contains "cloudflare" (Py.lower (text (web w url)))
     then Raise (Exception "Blocked by Cloudflare")
     else if is_success (status_code (web w url))
          then Return (text (web w url))
          else Raise (HTTPStatusError (status_code (web w url))
                        (text (web w url))),
     [Get url []]).
Proof.
  unfold fetch_content, raise_for_status. net_unfold.
  destruct (_ && _); [done|]. by destruct (is_success _).
Qed.

Lemma fetch_content_return url body :
  (fetch_content w url).1 = Return body ↔
  is_success (status_code (web w url)) = true ∧ body = text (web w url).
Proof.
  rewrite fetch_content_eq. cbn [fst].
  destruct (_ && _) eqn:Hblock.
  - apply andb_true_iff in Hblock as [H403%Z.eqb_eq _].
    rewrite H403. split; [done|]. by intros [? _].
  - destruct (is_success _); split; try done.
    + by intros [= <-].
    + by intros [_ ->].
    + by intros [? _].
Qed.

End FetchContent.

(** X3. [fetch_content] makes one GET of the URL, and it returns a
    body exactly when the status of the answer is 2xx; the body is
    then the text of the answer.  What it raises otherwise is an
    [Exception] or an [HTTPStatusError] whose status is not 2xx. *)
Theorem fetch_content_returns_on_2xx (w : World) (url body : string) :
  (fetch_content w url).2 = [Get url []]
  ∧ ((fetch_content w url).1 = Return body ↔
     is_success (status_code (web w url)) = true ∧ body = text (web w url))
  ∧ ∀ e, (fetch_content w url).1 = Raise e → stage_exn e = true.
Proof.
  split; [by rewrite fetch_content_eq|]. split; [apply fetch_content_return|].
  intros e. rewrite fetch_content_eq. cbn [fst].
  destruct (_ && _); [by intros [= <-]|].
  destruct (is_success _) eqn:E; [done|]. intros [= <-]. simpl. by rewrite E.
Qed.

(** The source up to the first failure, for a failure of the first
    source. *)
Lemma summarize_results_first_raise (w : World) (results : list SearchResult)
    (url : string) (after : list string) (e : exn) :
  links results = Some <$> (url :: after) →
  (fetch_content w url).1 = Raise e →
  summarize_results w results = (Raise e, [Get url []]).
Proof.
  intros Hlinks Hurl.
  pose proof (net_for_links _ _ Hlinks) as Hfor.
  pose proof (fetch_sources_raise w "" [] url after e ltac:(constructor) Hurl)
    as Hloop.
  change ([] ++ url :: after) with (url :: after) in Hloop.
  unfold summarize_results. cbv zeta.
  rewrite (net_bind_return _ _ (url :: after)) by (by rewrite Hfor).
  rewrite Hfor.
  rewrite (net_bind_raise _ _ e) by (by rewrite Hloop).
  by rewrite Hloop.
Qed.

(** X4. A page that answers 403 with the word "cloudflare" in its
    body, in any letter case, is reported as the [Exception]
    "Blocked by Cloudflare" and not as the [HTTPStatusError] of the
    403; when it is the first source of a run, POST /search answers
    500 with that text. *)
Theorem blocked_page_any_case (w : World) (url word : string) :
  status_code (web w url) = 403 →
  Py.lower word = "cloudflare" →
  Py.contains word (text (web w url)) = true →
  fetch_content w url = (Raise (Exception "Blocked by Cloudflare"), [Get url []])
  ∧ ∀ query page search_results after,
      (perform_search w (generate_search_query (extract_keywords query)) page).1
      = Return search_results →
      links (evaluate_and_filter_results search_results)
      = Some <$> (url :: after) →
      (search w query page).1
      = Return (HTTPException 500 "Blocked by Cloudflare").
Proof.
  intros Hstatus Hword Hin.
  assert (Hfetch : fetch_content w url
                   = (Raise (Exception "Blocked by Cloudflare"), [Get url []])).
  { rewrite fetch_content_eq, Hstatus.
    apply contains_lower in Hin. rewrite Hword in Hin. by rewrite Hin. }
  split; [done|]. intros query page search_results after Hsearch Hlinks.
  unfold search, search_body.
  rewrite (net_bind_return _ _ search_results) by done. cbn [fst].
  rewrite (summarize_results_first_raise w _ url after
             (Exception "Blocked by Cloudflare")); [done..|].
  by rewrite Hfetch.
Qed.

(** The first page of the example answers 403 with "CloudFlare" in
    its body. *)
Lemma blocked_page_any_case_witness :
  fetch_content
    (demo_world (mkResponse 200 "" (Some demo_items)) page_a_blocked "")
    "https://example.org/a"
  = (Raise (Exception "Blocked by Cloudflare"), [Get "https://example.org/a" []])
  ∧ ∀ query page search_results after,
      (perform_search
         (demo_world (mkResponse 200 "" (Some demo_items)) page_a_blocked "")
         (generate_search_query (extract_keywords query)) page).1
      = Return search_results →
      links (evaluate_and_filter_results search_results)
      = Some <$> ("https://example.org/a" :: after) →
      (search
         (demo_world (mkResponse 200 "" (Some demo_items)) page_a_blocked "")
         query page).1
      = Return (HTTPException 500 "Blocked by Cloudflare").
Proof.
  apply (blocked_page_any_case
           (demo_world (mkResponse 200 "" (Some demo_items)) page_a_blocked "")
           "https://example.org/a" "CloudFlare").
  - reflexivity.
  - reflexivity.
  - vm_compute. reflexivity.
Defined.

Section Wikipedia.
Context (w : World).

Lemma fetch_wikipedia_content_eq keywords :
  fetch_wikipedia_content w keywords
  = let found := wiki_search w (wiki_search_url keywords) in
    if is_success (status_code found)
    then match json found with
         | [] => (Return "", [Get (wiki_search_url keywords) []])
         | page_id :: _ =>
             let page := wiki_extract w (wiki_extract_url page_id) in
             (if is_success (status_code page)
              then getitem (json page) (pretty page_id)
              else Raise (HTTPStatusError (status_code page) (text page)),
              [Get (wiki_search_url keywords) [];
               Get (wiki_extract_url page_id) []])
         end
    else (Raise (HTTPStatusError (status_code found) (text found)),
          [Get (wiki_search_url keywords) []]).
Proof.
  unfold fetch_wikipedia_content, raise_for_status.
  fold (wiki_search_url keywords). cbv zeta. net_unfold.
  destruct (is_success _); [|done]. cbn [fst snd].
  destruct (json _) as [|page_id hits]; [done|].
  fold (wiki_extract_url page_id). net_unfold.
  by destruct (is_success _).
Qed.

End Wikipedia.

(** X5. When [fetch_wikipedia_content] returns a text, the search
    answered 2xx, and either it had no hit, the text is empty and the
    search was the only call, or the extract of its first hit was
    asked for in a second call, answered 2xx, and the text is what the
    answer has under the identifier of that hit; the other hits are
    not used. *)
Theorem fetch_wikipedia_content_returned (w : World) (keywords : list string)
    (content : string) :
  (fetch_wikipedia_content w keywords).1 = Return content →
  is_success (status_code (wiki_search w (wiki_search_url keywords))) = true
  ∧ ((json (wiki_search w (wiki_search_url keywords)) = []
      ∧ content = ""
      ∧ (fetch_wikipedia_content w keywords).2
        = [Get (wiki_search_url keywords) []])
     ∨ ∃ page_id hits,
         json (wiki_search w (wiki_search_url keywords)) = page_id :: hits
         ∧ is_success
             (status_code (wiki_extract w (wiki_extract_url page_id))) = true
         ∧ json (wiki_extract w (wiki_extract_url page_id)) !! pretty page_id
           = Some content
         ∧ (fetch_wikipedia_content w keywords).2
           = [Get (wiki_search_url keywords) [];
              Get (wiki_extract_url page_id) []]).
Proof.
  rewrite fetch_wikipedia_content_eq. cbv zeta.
  destruct (is_success (status_code (wiki_search w _))); [|done].
  destruct (json (wiki_search w _)) as [|page_id hits].
  - intros [= <-]. split; [done|]. by left.
  - cbn [fst snd]. destruct (is_success _) eqn:Hpage; [|done].
    unfold getitem. destruct (_ !! _) as [extract|] eqn:Hextract; [|done].
    intros [= <-]. split; [done|]. right. by exists page_id, hits.
Qed.

(** The encyclopedia of the example has one article, 42. *)
Lemma fetch_wikipedia_content_returned_witness :
  is_success
    (status_code (wiki_search eclipse_world (wiki_search_url ["Page"; "a"])))
  = true
  ∧ ((json (wiki_search eclipse_world (wiki_search_url ["Page"; "a"])) = []
      ∧ "An extract." = ""
      ∧ (fetch_wikipedia_content eclipse_world ["Page"; "a"]).2
        = [Get (wiki_search_url ["Page"; "a"]) []])
     ∨ ∃ page_id hits,
         json (wiki_search eclipse_world (wiki_search_url ["Page"; "a"]))
         = page_id :: hits
         ∧ is_success
             (status_code (wiki_extract eclipse_world (wiki_extract_url page_id)))
           = true
         ∧ json (wiki_extract eclipse_world (wiki_extract_url page_id))
           !! pretty page_id
           = Some "An extract."
         ∧ (fetch_wikipedia_content eclipse_world ["Page"; "a"]).2
           = [Get (wiki_search_url ["Page"; "a"]) [];
              Get (wiki_extract_url page_id) []]).
Proof.
  apply (fetch_wikipedia_content_returned eclipse_world ["Page"; "a"]
           "An extract.").
  vm_compute. reflexivity.
Defined.

Section SummarizeShape.
Context (w : World).

Lemma string_app_assoc (a b c : string) : (a +:+ b) +:+ c = a +:+ b +:+ c.
Proof. induction a as [|x a IH]; [done|]. by rewrite !app_cons, IH. Qed.

Lemma net_for_links_calls (l : list SearchResult) :
  (net_for (λ result, net_lift (getitem result "link")) l).2 = [].
Proof.
  induction l as [|r l IH]; [done|]. cbn [net_for]. net_unfold.
  destruct (getitem r "link") as [u|e]; [|done]. cbn [fst snd].
  destruct (net_for _ l) as [[ys|e] cs]; cbn [fst snd] in *; by subst cs.
Qed.

Lemma net_for_links_inv (l : list SearchResult) (sources : list string) :
  (net_for (λ result, net_lift (getitem result "link")) l).1 = Return sources →
  (λ result : SearchResult, result !! "link") <$> l = Some <$> sources.
Proof.
  revert sources. induction l as [|r l IH]; intros sources.
  - by intros [= <-].
  - cbn [net_for]. intros H.
    apply net_bind_inv in H as (u & Hu & H).
    apply net_bind_inv in H as (us & Hus & H).
    injection H as <-. unfold net_lift, getitem in Hu. cbn [fst] in Hu.
    destruct (r !! "link") as [u'|] eqn:E; [|done]. injection Hu as ->.
    cbn [fmap list_fmap]. rewrite E. f_equal. by apply IH.
Qed.

Lemma net_for_links_missing (l : list SearchResult) (i : nat) (r : SearchResult) :
  l !! i = Some r → r !! "link" = None →
  net_for (λ result, net_lift (getitem result "link")) l
  = (Raise (KeyError "link"), []).
Proof.
  revert i. induction l as [|r' l IH]; intros i Hi Hr; [done|].
  cbn [net_for]. destruct i as [|i].
  - injection Hi as ->. unfold getitem. by rewrite Hr.
  - rewrite (IH i Hi Hr). unfold getitem.
    by destruct (r' !! "link") as [u|].
Qed.

Lemma fetch_sources_return content sources :
  Forall (λ u, is_success (status_code (web w u)) = true) sources →
  fetch_sources w content sources
  = (Return (content +:+ pages_text w sources), (λ u, Get u []) <$> sources).
Proof.
  intros H. revert content.
  induction H as [|u sources Hu _ IH]; intros content; cbn [fetch_sources].
  - by rewrite app_empty_r.
  - assert (Hfetch : (fetch_content w u).1 = Return (text (web w u)))
      by by apply fetch_content_return.
    rewrite (net_bind_return _ _ _ Hfetch), IH, fetch_content_eq.
    cbn [fst snd pages_text]. by rewrite !string_app_assoc.
Qed.

Lemma fetch_sources_inv content sources result :
  (fetch_sources w content sources).1 = Return result →
  Forall (λ u, is_success (status_code (web w u)) = true) sources.
Proof.
  revert content. induction sources as [|u sources IH]; intros content;
    [constructor|].
  cbn [fetch_sources]. intros H.
  apply net_bind_inv in H as (html & Hu & H).
  apply fetch_content_return in Hu as [Hu _]. constructor; [done|]. eauto.
Qed.

End SummarizeShape.

(** X6. When [summarize_results] returns: the sources are the links of
    the first three results (at least one, at most three), every one
    of them answered 2xx, and the calls were, in this order, one GET
    per source, the calls of the encyclopedia for the keywords of the
    title of the first result, and one call of the model; the model
    got the paragraphs of each page and the text of the encyclopedia,
    each followed by a blank line, and the summary is what
    [render_latex] makes of the first 300 characters of its answer. *)
Theorem summarize_results_returned (w : World) (results : list SearchResult)
    (summary : string) (sources : list string) :
  (summarize_results w results).1 = Return (summary, sources) →
  links results = Some <$> sources
  ∧ (1 ≤ length sources ≤ 3)%nat
  ∧ Forall (λ u, is_success (status_code (web w u)) = true) sources
  ∧ ∃ top title wikipedia_content wiki_calls response_text,
      results !! 0%nat = Some top
      ∧ top !! "title" = Some title
      ∧ fetch_wikipedia_content w (extract_keywords title)
        = (Return wikipedia_content, wiki_calls)
      ∧ generate_content w
          (pages_text w sources +:+ wikipedia_content +:+ blank_line)
        = inl response_text
      ∧ summary = render_latex (Py.slice_to 300 response_text)
      ∧ (summarize_results w results).2
        = ((λ u, Get u []) <$> sources) ++ wiki_calls
          ++ [GenerateContent
                (pages_text w sources +:+ wikipedia_content +:+ blank_line)].
Proof.
  intros H. pose proof H as H'. unfold summarize_results in H'.
  apply net_bind_inv in H' as (sources' & Hfor & H').
  apply net_bind_inv in H' as (content & Hloop & H').
  apply net_bind_inv in H' as (top & Htop & H').
  apply net_bind_inv in H' as (title & Htitle & H').
  apply net_bind_inv in H' as (wikipedia_content & Hwiki & H').
  apply net_bind_inv in H' as (response_text & Hmodel & H').
  unfold mret, Net_ret in H'. cbn [fst] in H'. injection H' as Hsummary ->.
  pose proof (net_for_links_inv _ _ Hfor) as Hlinks.
  pose proof (fetch_sources_inv w _ _ _ Hloop) as Hpages.
  rewrite (fetch_sources_return w "" sources Hpages) in Hloop.
  cbn [fst] in Hloop. rewrite app_empty_l in Hloop. injection Hloop as <-.
  unfold net_lift, first in Htop. cbn [fst] in Htop.
  destruct (results !! 0%nat) as [top'|] eqn:Hfirst; [|done].
  injection Htop as ->.
  unfold net_lift, getitem in Htitle. cbn [fst] in Htitle.
  destruct (top !! "title") as [title'|] eqn:Htitle'; [|done].
  injection Htitle as ->.
  destruct (fetch_wikipedia_content w (extract_keywords title))
    as [wiki wiki_calls] eqn:Ewiki.
  cbn [fst] in Hwiki. subst wiki.
  destruct (generate_content w _) as [text|msg] eqn:Emodel; [|done].
  unfold net_call in Hmodel. cbn [fst] in Hmodel. injection Hmodel as ->.
  split; [done|]. split.
  { apply (f_equal length) in Hlinks. unfold links in Hlinks.
    rewrite !length_fmap, length_take in Hlinks.
    destruct results; [done|]. cbn [length] in Hlinks. lia. }
  split; [done|].
  exists top, title, wikipedia_content, wiki_calls, response_text.
  repeat (split; [done|]).
  unfold summarize_results. cbv zeta.
  pose proof (net_for_links_calls (take 3 results)) as Hcalls.
  destruct (net_for _ (take 3 results)) as [r cs]. cbn [fst snd] in *.
  subst r cs.
  rewrite (net_bind_return _ _ sources) by done. cbn [fst snd app].
  rewrite (fetch_sources_return w "" sources Hpages), app_empty_l.
  rewrite (net_bind_return _ _ (pages_text w sources)) by done.
  unfold first. rewrite Hfirst.
  rewrite (net_bind_return _ _ top) by done.
  unfold getitem. rewrite Htitle'.
  rewrite (net_bind_return _ _ title) by done.
  rewrite Ewiki.
  rewrite (net_bind_return _ _ wikipedia_content) by done.
  rewrite Emodel.
  rewrite (net_bind_return _ _ response_text) by done.
  cbn [fst snd net_lift net_call mret Net_ret app]. by rewrite ?app_nil_r.
Qed.

(** The three sources of the example. *)
Lemma summarize_results_returned_witness :
  links demo_items
  = Some <$> ["https://example.org/a"; "https://example.org/b";
              "https://example.org/c"]
  ∧ (1 ≤ length ["https://example.org/a"; "https://example.org/b";
                 "https://example.org/c"] ≤ 3)%nat
  ∧ Forall (λ u, is_success (status_code (web eclipse_world u)) = true)
      ["https://example.org/a"; "https://example.org/b";
       "https://example.org/c"]
  ∧ ∃ top title wikipedia_content wiki_calls response_text,
      demo_items !! 0%nat = Some top
      ∧ top !! "title" = Some title
      ∧ fetch_wikipedia_content eclipse_world (extract_keywords title)
        = (Return wikipedia_content, wiki_calls)
      ∧ generate_content eclipse_world
          (pages_text eclipse_world
             ["https://example.org/a"; "https://example.org/b";
              "https://example.org/c"]
           +:+ wikipedia_content +:+ blank_line)
        = inl response_text
      ∧ "Eclipse 2026" = render_latex (Py.slice_to 300 response_text)
      ∧ (summarize_results eclipse_world demo_items).2
        = ((λ u, Get u []) <$> ["https://example.org/a"; "https://example.org/b";
                                "https://example.org/c"])
          ++ wiki_calls
          ++ [GenerateContent
                (pages_text eclipse_world
                   ["https://example.org/a"; "https://example.org/b";
                    "https://example.org/c"]
                 +:+ wikipedia_content +:+ blank_line)].
Proof.
  apply (summarize_results_returned eclipse_world demo_items "Eclipse 2026").
  vm_compute. reflexivity.
Defined.

(** X7. When one of the first three results has no [link],
    [summarize_results] raises the [KeyError] of that key before any
    call: no page is fetched, and neither the encyclopedia nor the
    model is asked. *)
Theorem missing_link_raises_first (w : World) (results : list SearchResult)
    (i : nat) (result : SearchResult) :
  (i < 3)%nat →
  results !! i = Some result →
  result !! "link" = None →
  summarize_results w results = (Raise (KeyError "link"), []).
Proof.
  intros Hi Hresult Hlink. unfold summarize_results. cbv zeta.
  rewrite (net_for_links_missing (take 3 results) i result); [done| |done].
  by rewrite lookup_take_lt.
Qed.

(** The second result has no link. *)
Lemma missing_link_raises_first_witness :
  summarize_results eclipse_world [demo_result "a"; no_link_result]
  = (Raise (KeyError "link"), []).
Proof.
  apply (missing_link_raises_first eclipse_world
           [demo_result "a"; no_link_result] 1 no_link_result).
  - lia.
  - reflexivity.
  - vm_compute. reflexivity.
Defined.

(** X8. When the first three results have their links and their pages
    answer 2xx, but the first result has no [title],
    [summarize_results] raises the [KeyError] of that key after it has
    fetched every source: the encyclopedia and the model are not
    asked, and the pages were fetched for nothing. *)
Theorem missing_title_raises_late (w : World) (results : list SearchResult)
    (sources : list string) (top : SearchResult) :
  links results = Some <$> sources →
  Forall (λ u, is_success (status_code (web w u)) = true) sources →
  results !! 0%nat = Some top →
  top !! "title" = None →
  summarize_results w results
  = (Raise (KeyError "title"), (λ u, Get u []) <$> sources).
Proof.
  intros Hlinks Hpages Htop Htitle.
  pose proof (net_for_links _ _ Hlinks) as Hfor.
  unfold summarize_results. cbv zeta.
  rewrite (net_bind_return _ _ sources) by (by rewrite Hfor).
  rewrite Hfor, (fetch_sources_return w "" sources Hpages).
  rewrite (net_bind_return _ _ ("" +:+ pages_text w sources)) by done.
  unfold first. rewrite Htop.
  rewrite (net_bind_return _ _ top) by done.
  unfold getitem. rewrite Htitle.
  rewrite (net_bind_raise _ _ (KeyError "title")) by done.
  cbn [fst snd net_lift app]. by rewrite ?app_nil_r.
Qed.

(** The only result has a link and no title. *)
Lemma missing_title_raises_late_witness :
  summarize_results eclipse_world [no_title_result]
  = (Raise (KeyError "title"),
     (λ u, Get u []) <$> ["https://example.org/x"]).
Proof.
  apply (missing_title_raises_late eclipse_world [no_title_result]
           ["https://example.org/x"] no_title_result).
  - vm_compute. reflexivity.
  - repeat constructor.
  - reflexivity.
  - vm_compute. reflexivity.
Defined.

Section GoogleResults.

Lemma google_result_return (result : SearchResult) (g : GoogleResult) :
  google_result result = Return g ↔ viewed result g.
Proof.
  unfold google_result, getitem, viewed.
  destruct (result !! "link") as [l|]; [|split; [done|by intros [? _]]].
  destruct (result !! "title") as [t|]; [|split; [done|by intros (_ & ? & _)]].
  destruct (result !! "snippet") as [s|];
    [|split; [done|by intros (_ & _ & ?)]].
  destruct g as [l' t' s']. simpl. split.
  - by intros [= -> -> ->].
  - by intros ([= ->] & [= ->] & [= ->]).
Qed.

Lemma google_results_calls (l : list SearchResult) : (google_results l).2 = [].
Proof.
  unfold google_results. induction l as [|r l IH]; [done|].
  cbn [net_for]. net_unfold.
  destruct (google_result r) as [g|e]; [|done]. cbn [fst snd].
  destruct (net_for _ l) as [[gs|e] cs]; cbn [fst snd] in *; by subst cs.
Qed.

Lemma google_results_return (l : list SearchResult) (gs : list GoogleResult) :
  (google_results l).1 = Return gs ↔ Forall2 viewed l gs.
Proof.
  unfold google_results. revert gs. induction l as [|r l IH]; intros gs.
  - split; [intros [= <-]; constructor|]. by inversion 1.
  - cbn [net_for]. split.
    + intros H. apply net_bind_inv in H as (g & Hg & H).
      apply net_bind_inv in H as (gs' & Hgs & H). injection H as <-.
      constructor; [by apply google_result_return|by apply IH].
    + inversion 1 as [|? g ? gs' Hg Hgs]; subst.
      apply google_result_return in Hg. apply IH in Hgs.
      rewrite (net_bind_return _ _ g) by (by unfold net_lift; rewrite Hg).
      cbn [fst]. by rewrite (net_bind_return _ _ gs').
Qed.

Lemma viewed_links (l : list SearchResult) (gs : list GoogleResult) (n : nat) :
  Forall2 viewed l gs →
  (λ result : SearchResult, result !! "link") <$> take n l
  = Some <$> (link <$> take n gs).
Proof.
  intros H. revert n. induction H as [|r g l gs (Hr & _) _ IH]; intros [|n];
    try done.
  cbn [take fmap list_fmap]. rewrite Hr. f_equal. apply IH.
Qed.

End GoogleResults.

(** X9. When POST /search answers with a body, its status is
    "Completed"; its [googleResults] are the public views (link,
    title, snippet) of the first ten items of the search API, in
    their order, at least one and at most ten; and its [sources] are
    the links of the first three of these [googleResults]. *)
Theorem search_reply_shape (w : World) (query : string) (page : Z)
    (status result : string) (sources : list string)
    (googleResults : list GoogleResult) :
  (search w query page).1 = Return (Reply status result sources googleResults) →
  status = "Completed"
  ∧ ∃ search_results,
      (perform_search w (generate_search_query (extract_keywords query)) page).1
      = Return search_results
      ∧ Forall2 viewed (evaluate_and_filter_results search_results) googleResults
      ∧ length googleResults = (10 `min` length search_results)%nat
      ∧ (1 ≤ length googleResults)%nat
      ∧ sources = link <$> take 3 googleResults.
Proof.
  unfold search. intros H.
  destruct (search_body w query page).1 as [reply|e] eqn:Hbody;
    [|by destruct e].
  cbn [fst] in H. injection H as ->.
  unfold search_body in Hbody.
  apply net_bind_inv in Hbody as (search_results & Hsearch & Hbody).
  apply net_bind_inv in Hbody as ([summary sources'] & Hsum & Hbody).
  apply net_bind_inv in Hbody as (gs & Hgs & Hbody).
  injection Hbody as <- <- <- <-. split; [done|].
  exists search_results. split; [done|].
  apply google_results_return in Hgs. split; [done|].
  pose proof (Forall2_length _ _ _ Hgs) as Hlen.
  unfold evaluate_and_filter_results in *. rewrite length_take in Hlen.
  split; [done|].
  unfold summarize_results in Hsum.
  apply net_bind_inv in Hsum as (sources'' & Hfor & Hsum).
  apply net_bind_inv in Hsum as (content & _ & Hsum).
  apply net_bind_inv in Hsum as (top & Htop & Hsum).
  apply net_bind_inv in Hsum as (title & _ & Hsum).
  apply net_bind_inv in Hsum as (wikipedia_content & _ & Hsum).
  apply net_bind_inv in Hsum as (response_text & _ & Hsum).
  unfold mret, Net_ret in Hsum. cbn [fst] in Hsum. injection Hsum as _ ->.
  split.
  { unfold net_lift, first in Htop. cbn [fst] in Htop.
    destruct (take 10 search_results) as [|r l]; [done|].
    inversion Hgs; subst. simpl. lia. }
  apply net_for_links_inv in Hfor.
  rewrite (viewed_links _ _ 3 Hgs) in Hfor.
  by apply (inj (fmap Some)) in Hfor.
Qed.

(** The answer of POST /search in the world of the example. *)
Lemma search_reply_shape_witness :
  "Completed" = "Completed"
  ∧ ∃ search_results,
      (perform_search eclipse_world
         (generate_search_query (extract_keywords "solar eclipse 2026")) 1).1
      = Return search_results
      ∧ Forall2 viewed (evaluate_and_filter_results search_results)
          [mkGoogleResult "https://example.org/a" "Page a" "About a";
           mkGoogleResult "https://example.org/b" "Page b" "About b";
           mkGoogleResult "https://example.org/c" "Page c" "About c"]
      ∧ length [mkGoogleResult "https://example.org/a" "Page a" "About a";
                mkGoogleResult "https://example.org/b" "Page b" "About b";
                mkGoogleResult "https://example.org/c" "Page c" "About c"]
        = (10 `min` length search_results)%nat
      ∧ (1 ≤ length [mkGoogleResult "https://example.org/a" "Page a" "About a";
                     mkGoogleResult "https://example.org/b" "Page b" "About b";
                     mkGoogleResult "https://example.org/c" "Page c" "About c"])%nat
      ∧ ["https://example.org/a"; "https://example.org/b";
         "https://example.org/c"]
        = link <$> take 3
            [mkGoogleResult "https://example.org/a" "Page a" "About a";
             mkGoogleResult "https://example.org/b" "Page b" "About b";
             mkGoogleResult "https://example.org/c" "Page c" "About c"].
Proof.
  apply (search_reply_shape eclipse_world "solar eclipse 2026" 1
           "Completed" "Eclipse 2026").
  vm_compute. reflexivity.
Defined.

Create HintDb stage.

Section StageExceptions.
Context (w : World).

Lemma stage_ret {A} (a : A) : raises_stage_exn (mret a : Net A).
Proof. by intros e. Qed.

Lemma stage_call {A} (c : call) (a : A) : raises_stage_exn (net_call c a).
Proof. by intros e. Qed.

Lemma stage_bind {A B} (c : Net A) (f : A → Net B) :
  raises_stage_exn c → (∀ a, raises_stage_exn (f a)) →
  raises_stage_exn (c ≫= f).
Proof.
  intros Hc Hf e. unfold mbind, Net_bind.
  destruct c.1 as [a|e'] eqn:E; cbn [fst].
  - apply Hf.
  - intros [= <-]. by apply Hc.
Qed.

Lemma stage_getitem {V} (d : gmap string V) (key : string) :
  raises_stage_exn (net_lift (getitem d key)).
Proof. intros e. unfold net_lift, getitem. destruct (d !! key); naive_solver. Qed.

Lemma stage_first {A} (l : list A) : raises_stage_exn (net_lift (first l)).
Proof. intros e. unfold net_lift, first. destruct (l !! 0%nat); naive_solver. Qed.

Lemma stage_raise_for_status {J} (response : Response J) :
  raises_stage_exn (raise_for_status response).
Proof.
  intros e. unfold raise_for_status.
  destruct (is_success _) eqn:E; [done|]. intros [= <-]. simpl. by rewrite E.
Qed.

Lemma stage_for {A B} (f : A → Net B) (l : list A) :
  (∀ x, raises_stage_exn (f x)) → raises_stage_exn (net_for f l).
Proof.
  intros Hf. induction l as [|x l IH]; [apply stage_ret|].
  cbn [net_for]. apply stage_bind; [apply Hf|]. intros y.
  apply stage_bind; [apply IH|]. intros ys. apply stage_ret.
Qed.

#[local] Hint Resolve stage_ret stage_call stage_getitem stage_first
  stage_raise_for_status : stage.

Lemma stage_perform_search q page : raises_stage_exn (perform_search w q page).
Proof.
  unfold perform_search. cbv zeta.
  repeat (apply stage_bind; [auto with stage|intros ?]). auto with stage.
Qed.

Lemma stage_fetch_content url : raises_stage_exn (fetch_content w url).
Proof.
  intros e. rewrite fetch_content_eq. cbn [fst].
  destruct (_ && _); [by intros [= <-]|].
  destruct (is_success _) eqn:E; [done|]. intros [= <-]. simpl. by rewrite E.
Qed.

Lemma stage_fetch_sources content sources :
  raises_stage_exn (fetch_sources w content sources).
Proof.
  revert content. induction sources as [|u sources IH]; intros content.
  - apply stage_ret.
  - cbn [fetch_sources]. apply stage_bind; [apply stage_fetch_content|].
    intros html. apply IH.
Qed.

Lemma stage_fetch_wikipedia_content keywords :
  raises_stage_exn (fetch_wikipedia_content w keywords).
Proof.
  unfold fetch_wikipedia_content. cbv zeta.
  apply stage_bind; [auto with stage|intros found].
  apply stage_bind; [auto with stage|intros _].
  destruct (json found); [auto with stage|].
  repeat (apply stage_bind; [auto with stage|intros ?]). auto with stage.
Qed.

Lemma stage_summarize_results results :
  raises_stage_exn (summarize_results w results).
Proof.
  unfold summarize_results. cbv zeta.
  apply stage_bind; [apply stage_for; auto with stage|intros sources].
  apply stage_bind; [apply stage_fetch_sources|intros content].
  apply stage_bind; [auto with stage|intros top].
  apply stage_bind; [auto with stage|intros title].
  apply stage_bind; [apply stage_fetch_wikipedia_content|intros wiki].
  apply stage_bind; [|intros text; apply stage_ret].
  destruct (generate_content w _); [auto with stage|].
  by intros e [= <-].
Qed.

Lemma stage_google_results filtered_results :
  raises_stage_exn (google_results filtered_results).
Proof.
  unfold google_results. apply stage_for. intros result e.
  unfold net_lift, google_result, getitem. cbn [fst].
  repeat (destruct (result !! _); [|by intros [= <-]]). done.
Qed.

Lemma stage_search_body query page : raises_stage_exn (search_body w query page).
Proof.
  unfold search_body. cbv zeta.
  apply stage_bind; [apply stage_perform_search|intros search_results].
  apply stage_bind; [apply stage_summarize_results|intros [summary sources]].
  apply stage_bind; [apply stage_google_results|intros gs]. apply stage_ret.
Qed.

End StageExceptions.

(** X10. POST /search lets no exception out: it always answers, with
    the body of a completed run or with an [HTTPException] whose
    status is not 2xx (the status of the answer that made
    [raise_for_status] raise, or 500). *)
Theorem search_always_answers (w : World) (query : string) (page : Z) :
  ∃ reply,
    (search w query page).1 = Return reply
    ∧ match reply with
      | Reply status _ _ _ => status = "Completed"
      | HTTPException status_code _ => is_success status_code = false
      end.
Proof.
  unfold search.
  destruct (search_body w query page).1 as [reply|e] eqn:Hbody.
  - exists reply. split; [done|]. unfold search_body in Hbody.
    apply net_bind_inv in Hbody as (search_results & _ & Hbody).
    apply net_bind_inv in Hbody as ([summary sources] & _ & Hbody).
    apply net_bind_inv in Hbody as (gs & _ & Hbody).
    by injection Hbody as <-.
  - exists (search_except e). split; [done|].
    pose proof (stage_search_body w query page e Hbody) as He.
    destruct e as [|status_code text|msg]; [done| |done].
    simpl in *. by apply negb_true_iff.
Qed.

(* ================================================================= *)
(** ** Further properties of the streaming transport *)

#[local] Arguments run_labels : simpl never.

(** X11. In every run of [websocket_search], whatever the world and
    the peer, the messages that [send_json] is called with carry the
    labels of a completed run, in their order and none left out, up
    to some stage, followed by at most one [Error]: no stage is
    announced twice or out of turn, and nothing follows an [Error]. *)
Theorem labels_in_stage_order (w : World) (p : Peer) :
  run_labels (attempted_labels (trace (websocket_search w p start).2)) = true.
Proof.
  destruct (websocket_search w p start) as [r s] eqn:E.
  revert E. destruct p as [[data|] n [|e0 st]].
  all: ws_abstract w; intros ps gr sm ek gsq flt.
  all: ws_exec ps gr sm flt.
  all: intros [= <- <-]; subst; vm_compute; reflexivity.
Qed.

(** X12. Every run of [websocket_search] calls [websocket.close()] at
    most once; when it is called, that call is the last thing the run
    does: no message is sent and nothing is asked of the outside world
    after it. *)
Theorem close_called_at_most_once (w : World) (p : Peer) :
  (closes (trace (websocket_search w p start).2) ≤ 1)%nat
  ∧ (closes (trace (websocket_search w p start).2) = 0%nat
     ∨ last (trace (websocket_search w p start).2) = Some EClose).
Proof.
  destruct (websocket_search w p start) as [r s] eqn:E.
  revert E. destruct p as [[data|] n [|e0 st]].
  all: ws_abstract w; intros ps gr sm ek gsq flt.
  all: ws_exec ps gr sm flt.
  all: intros [= <- <-]; subst; cbn [snd trace].
  all: split; [vm_compute; lia|].
  all: first [by right | by left].
Qed.

(** X13. When the peer leaves before it has sent its message,
    [receive_json] raises [WebSocketDisconnect]: the run sends
    nothing, calls nothing in the outside world, prints one line, does
    not call [websocket.close()], and returns. *)
Theorem no_message_no_work (w : World) (p : Peer) :
  ws_message p = None →
  websocket_search w p start
  = (Return (),
     mkState [EAccept; EReceive; EPrint "WebSocket disconnected"] 0
             DISCONNECTED).
Proof.
  destruct p as [msg n policy]. simpl. intros ->. reflexivity.
Qed.

(** A peer that connects and leaves. *)
Lemma no_message_no_work_witness :
  websocket_search eclipse_world (mkPeer None None Dropped) start
  = (Return (),
     mkState [EAccept; EReceive; EPrint "WebSocket disconnected"] 0
             DISCONNECTED).
Proof.
  exact (no_message_no_work eclipse_world (mkPeer None None Dropped) eq_refl).
Defined.

(** The two transports side by side: [search] is unfolded with
    [websocket_search], and [google_results] is known to call
    nothing. *)
Ltac both_abstract w :=
  cbv beta zeta delta [search search_body];
  pose proof google_results_calls as Hgc; revert Hgc;
  ws_abstract w.

Ltac both_split ps gr sm flt Hgc :=
  match goal with
  | |- context [gr ?a] =>
      let H := fresh in
      pose proof (Hgc a) as H;
      destruct (gr a) as [[?g|?e] ?cs]; cbn [snd] in H; subst
  | |- _ => ws_split ps gr sm flt
  end.

Ltac both_exec ps gr sm flt Hgc :=
  cbv [try_finally try_except accept receive_json send_json close print lift
       emit mbind M_bind Net_bind mret M_ret Net_ret start]; cbn;
  repeat (both_split ps gr sm flt Hgc; cbn).

(** X14. For a peer that stays, the two transports agree: POST
    /search answers with ["Completed"], a summary, sources and
    [googleResults] exactly when the messages that the WebSocket
    delivers for the same query and page are the four status
    messages, the [googleResults], the status of the summary and
    [Completed] with the same summary and sources; and then both made
    the same calls in the same order. *)
Theorem transports_agree (w : World) (p : Peer) (data : ClientMessage)
    (result : string) (sources : list string)
    (googleResults : list GoogleResult) :
  ws_message p = Some data →
  stays p 7 = true →
  ((search w (query data) (default 1 (page data))).1
   = Return (Reply "Completed" result sources googleResults)
   ↔ delivered (trace (websocket_search w p start).2)
     = [Status "Extracting keywords..."; Status "Generating search query...";
        Status "Performing search...";
        Status "Evaluating and filtering results...";
        GoogleResultsReady googleResults; Status "Summarizing results...";
        Completed result sources])
  ∧ ((search w (query data) (default 1 (page data))).1
     = Return (Reply "Completed" result sources googleResults) →
     calls (trace (websocket_search w p start).2)
     = (search w (query data) (default 1 (page data))).2).
Proof.
  intros Hdata Hstays.
  destruct (websocket_search w p start) as [r s] eqn:E.
  revert E. destruct p as [msg [n|] policy]; simpl in Hdata, Hstays; subst msg.
  1: do 7 (destruct n as [|n]; [done|]).
  all: clear Hstays; both_abstract w; intros ps gr sm ek gsq flt Hgc.
  all: both_exec ps gr sm flt Hgc.
  all: intros [= <- <-]; subst; cbn.
  all: repeat match goal with
         | |- context [search_except ?e] => is_var e; destruct e; cbn
         end.
  all: split; [split; intros ?; by simplify_eq|intros ?; simplify_eq].
  all: by rewrite ?app_nil_r.
Qed.

(** The example run on both transports. *)
Lemma transports_agree_witness :
  ((search eclipse_world "solar eclipse 2026" 1).1
   = Return (Reply "Completed" "Eclipse 2026"
               ["https://example.org/a"; "https://example.org/b";
                "https://example.org/c"]
               [mkGoogleResult "https://example.org/a" "Page a" "About a";
                mkGoogleResult "https://example.org/b" "Page b" "About b";
                mkGoogleResult "https://example.org/c" "Page c" "About c"])
   ↔ delivered (trace (websocket_search eclipse_world demo_peer start).2)
     = [Status "Extracting keywords..."; Status "Generating search query...";
        Status "Performing search...";
        Status "Evaluating and filtering results...";
        GoogleResultsReady
          [mkGoogleResult "https://example.org/a" "Page a" "About a";
           mkGoogleResult "https://example.org/b" "Page b" "About b";
           mkGoogleResult "https://example.org/c" "Page c" "About c"];
        Status "Summarizing results...";
        Completed "Eclipse 2026"
          ["https://example.org/a"; "https://example.org/b";
           "https://example.org/c"]])
  ∧ ((search eclipse_world "solar eclipse 2026" 1).1
     = Return (Reply "Completed" "Eclipse 2026"
                 ["https://example.org/a"; "https://example.org/b";
                  "https://example.org/c"]
                 [mkGoogleResult "https://example.org/a" "Page a" "About a";
                  mkGoogleResult "https://example.org/b" "Page b" "About b";
                  mkGoogleResult "https://example.org/c" "Page c" "About c"]) →
     calls (trace (websocket_search eclipse_world demo_peer start).2)
     = (search eclipse_world "solar eclipse 2026" 1).2).
Proof.
  exact (transports_agree eclipse_world demo_peer
           (mkClientMessage "solar eclipse 2026" None) _ _ _ eq_refl eq_refl).
Defined.

(** X15. When one of the filtered results lacks a key of its public
    view, the two transports find out at different times.  On the
    WebSocket the [KeyError] comes up when the [googleResults] are
    built: the fifth message is the [Error], and no page, no
    encyclopedia and no model was asked.  In POST /search the
    [googleResults] are built last: when the summary succeeds, all its
    calls have been made, and then the answer is the 500 of the
    [KeyError]. *)
Theorem malformed_result_found_early_or_late (w : World) (p : Peer)
    (data : ClientMessage) (search_results : list SearchResult)
    (search_calls : list call) (msg : string) :
  ws_message p = Some data →
  stays p 5 = true →
  perform_search w (generate_search_query (extract_keywords (query data)))
    (default 1 (page data))
  = (Return search_results, search_calls) →
  (google_results (evaluate_and_filter_results search_results)).1
  = Raise (Exception msg) →
  (websocket_search w p start).1 = Return ()
  ∧ sends (trace (websocket_search w p start).2)
    = [(Status "Extracting keywords...", true);
       (Status "Generating search query...", true);
       (Status "Performing search...", true);
       (Status "Evaluating and filtering results...", true);
       (Error msg, true)]
  ∧ calls (trace (websocket_search w p start).2) = search_calls
  ∧ ∀ summary sources,
      (summarize_results w (evaluate_and_filter_results search_results)).1
      = Return (summary, sources) →
      search w (query data) (default 1 (page data))
      = (Return (HTTPException 500 msg),
         search_calls
         ++ (summarize_results w (evaluate_and_filter_results search_results)).2).
Proof.
  intros Hdata Hstays Hps Hgr.
  pose proof (google_results_calls (evaluate_and_filter_results search_results))
    as Hcalls.
  destruct (google_results (evaluate_and_filter_results search_results))
    as [r cs] eqn:Hgr'.
  cbn [fst snd] in Hgr, Hcalls. subst r cs.
  assert (Hsync : ∀ summary sources,
    (summarize_results w (evaluate_and_filter_results search_results)).1
    = Return (summary, sources) →
    search w (query data) (default 1 (page data))
    = (Return (HTTPException 500 msg),
       search_calls
       ++ (summarize_results w (evaluate_and_filter_results search_results)).2)).
  { intros summary sources Hsum. unfold search, search_body.
    rewrite (net_bind_return _ _ search_results) by (by rewrite Hps).
    rewrite Hps. cbn [fst snd].
    rewrite (net_bind_return _ _ (summary, sources)) by done.
    cbn [fst snd]. rewrite Hgr'.
    rewrite (net_bind_raise _ _ (Exception msg)) by done.
    cbn [fst snd search_except]. by rewrite app_nil_r. }
  revert Hsync. generalize (summarize_results w
    (evaluate_and_filter_results search_results)). intros sum_out Hsync.
  destruct (websocket_search w p start) as [r s] eqn:E.
  revert E. destruct p as [m [n|] policy]; simpl in Hdata, Hstays; subst m.
  1: do 5 (destruct n as [|n]; [done|]).
  all: clear Hstays; revert Hps Hgr'; ws_abstract w;
    intros ps gr sm ek gsq flt Hps Hgr'.
  all: ws_exec ps gr sm flt.
  all: intros [= <- <-]; subst; cbn.
  all: by rewrite ?app_nil_r.
Qed.

(** The only result has no snippet. *)
Lemma malformed_result_found_early_or_late_witness :
  (websocket_search no_snippet_world demo_peer start).1 = Return ()
  ∧ sends (trace (websocket_search no_snippet_world demo_peer start).2)
    = [(Status "Extracting keywords...", true);
       (Status "Generating search query...", true);
       (Status "Performing search...", true);
       (Status "Evaluating and filtering results...", true);
       (Error "'snippet'", true)]
  ∧ calls (trace (websocket_search no_snippet_world demo_peer start).2)
    = [Get search_url [("key", PStr "key"); ("cx", PStr "cx");
                       ("q", PStr "solar eclipse 2026"); ("start", PInt 1)]]
  ∧ ∀ summary sources,
      (summarize_results no_snippet_world
         (evaluate_and_filter_results [no_snippet_result])).1
      = Return (summary, sources) →
      search no_snippet_world "solar eclipse 2026" 1
      = (Return (HTTPException 500 "'snippet'"),
         [Get search_url [("key", PStr "key"); ("cx", PStr "cx");
                          ("q", PStr "solar eclipse 2026"); ("start", PInt 1)]]
         ++ (summarize_results no_snippet_world
               (evaluate_and_filter_results [no_snippet_result])).2).
Proof.
  apply (malformed_result_found_early_or_late no_snippet_world demo_peer
           (mkClientMessage "solar eclipse 2026" None) [no_snippet_result]).
  - reflexivity.
  - reflexivity.
  - vm_compute. reflexivity.
  - vm_compute. reflexivity.
Defined.

(* ================================================================= *)
(** ** Failures after the pages, and the blank query *)

Section LateFailures.
Context (w : World).

(** [summarize_results] up to the call of the encyclopedia, when the
    links are there, the pages answer 2xx and the first result has a
    title. *)
Lemma summarize_results_from_wiki (results : list SearchResult)
    (sources : list string) (top : SearchResult) (title : string) :
  links results = Some <$> sources →
  Forall (λ u, is_success (status_code (web w u)) = true) sources →
  results !! 0%nat = Some top →
  top !! "title" = Some title →
  summarize_results w results
  = let rest :=
      wikipedia_content ← fetch_wikipedia_content w (extract_keywords title);
      response_text ←
        match generate_content w
                (pages_text w sources +:+ wikipedia_content +:+ blank_line) with
        | inl response_text =>
            net_call
              (GenerateContent
                 (pages_text w sources +:+ wikipedia_content +:+ blank_line))
              response_text
        | inr msg =>
            (Raise (Exception msg),
             [GenerateContent
                (pages_text w sources +:+ wikipedia_content +:+ blank_line)])
        end;
      mret (render_latex (Py.slice_to 300 response_text), sources) in
    (rest.1, ((λ u, Get u []) <$> sources) ++ rest.2).
Proof.
  intros Hlinks Hpages Htop Htitle.
  pose proof (net_for_links _ _ Hlinks) as Hfor.
  unfold summarize_results. cbv zeta.
  rewrite (net_bind_return _ _ sources) by (by rewrite Hfor).
  rewrite Hfor, (fetch_sources_return w "" sources Hpages), app_empty_l.
  rewrite (net_bind_return _ _ (pages_text w sources)) by done.
  unfold first. rewrite Htop.
  rewrite (net_bind_return _ _ top) by done.
  unfold getitem. rewrite Htitle.
  rewrite (net_bind_return _ _ title) by done.
  by cbn [fst snd net_lift app].
Qed.

End LateFailures.

(** X16. The encyclopedia is not optional: when its lookup raises
    after the pages were fetched, [summarize_results] raises the same
    exception; the model is not called and nothing of the pages is
    returned. *)
Theorem encyclopedia_failure_is_fatal (w : World) (results : list SearchResult)
    (sources : list string) (top : SearchResult) (title : string)
    (e : exn) (wiki_calls : list call) :
  links results = Some <$> sources →
  Forall (λ u, is_success (status_code (web w u)) = true) sources →
  results !! 0%nat = Some top →
  top !! "title" = Some title →
  fetch_wikipedia_content w (extract_keywords title) = (Raise e, wiki_calls) →
  summarize_results w results
  = (Raise e, ((λ u, Get u []) <$> sources) ++ wiki_calls).
Proof.
  intros Hlinks Hpages Htop Htitle Hwiki.
  rewrite (summarize_results_from_wiki w results sources top title) by done.
  cbv zeta. by rewrite (net_bind_raise _ _ e), Hwiki by (by rewrite Hwiki).
Qed.

(** The encyclopedia answers 503. *)
Lemma encyclopedia_failure_is_fatal_witness :
  summarize_results wiki_down_world demo_items
  = (Raise (HTTPStatusError 503 "Service Unavailable"),
     ((λ u, Get u []) <$> ["https://example.org/a"; "https://example.org/b";
                           "https://example.org/c"])
     ++ [Get (wiki_search_url ["Page"; "a"]) []]).
Proof.
  apply (encyclopedia_failure_is_fatal wiki_down_world demo_items _
           (demo_result "a") "Page a").
  - vm_compute. reflexivity.
  - repeat constructor.
  - reflexivity.
  - vm_compute. reflexivity.
  - vm_compute. reflexivity.
Defined.

(** X17. When the model raises, [summarize_results] raises an
    [Exception] with the same text, after every page and the
    encyclopedia were asked and with the call of the model as its
    last call: there is no summary without the model. *)
Theorem model_failure_is_fatal (w : World) (results : list SearchResult)
    (sources : list string) (top : SearchResult)
    (title wikipedia_content msg : string) (wiki_calls : list call) :
  links results = Some <$> sources →
  Forall (λ u, is_success (status_code (web w u)) = true) sources →
  results !! 0%nat = Some top →
  top !! "title" = Some title →
  fetch_wikipedia_content w (extract_keywords title)
  = (Return wikipedia_content, wiki_calls) →
  generate_content w (pages_text w sources +:+ wikipedia_content +:+ blank_line)
  = inr msg →
  summarize_results w results
  = (Raise (Exception msg),
     ((λ u, Get u []) <$> sources) ++ wiki_calls
     ++ [GenerateContent
           (pages_text w sources +:+ wikipedia_content +:+ blank_line)]).
Proof.
  intros Hlinks Hpages Htop Htitle Hwiki Hmodel.
  rewrite (summarize_results_from_wiki w results sources top title) by done.
  cbv zeta.
  rewrite (net_bind_return _ _ wikipedia_content), Hwiki by (by rewrite Hwiki).
  cbn [fst snd]. rewrite Hmodel.
  by rewrite (net_bind_raise _ _ (Exception msg)).
Qed.

(** The model answers with an error. *)
Lemma model_failure_is_fatal_witness :
  summarize_results model_down_world demo_items
  = (Raise (Exception "quota exceeded"),
     ((λ u, Get u []) <$> ["https://example.org/a"; "https://example.org/b";
                           "https://example.org/c"])
     ++ [Get (wiki_search_url ["Page"; "a"]) []]
     ++ [GenerateContent
           (pages_text model_down_world
              ["https://example.org/a"; "https://example.org/b";
               "https://example.org/c"]
            +:+ "" +:+ blank_line)]).
Proof.
  apply (model_failure_is_fatal model_down_world demo_items _
           (demo_result "a") "Page a").
  - vm_compute. reflexivity.
  - repeat constructor.
  - reflexivity.
  - vm_compute. reflexivity.
  - vm_compute. reflexivity.
  - vm_compute. reflexivity.
Defined.

Lemma net_bind_calls {A B} (c : Net A) (f : A → Net B) :
  ∃ rest, (c ≫= f).2 = c.2 ++ rest.
Proof.
  unfold mbind, Net_bind. destruct c.1; cbn [snd]; [eauto|].
  exists []. by rewrite app_nil_r.
Qed.

(** X18. A blank query is not refused: its keywords are none, its
    search query is the empty string, and the first thing POST /search
    does is to ask the search API for the empty string. *)
Theorem blank_query_is_searched (w : World) (query : string) (page : Z) :
  blank query = true →
  generate_search_query (extract_keywords query) = ""
  ∧ ∃ rest,
      (search w query page).2
      = Get search_url (search_params w "" page) :: rest.
Proof.
  intros Hblank. unfold extract_keywords. rewrite (split_blank _ Hblank).
  split; [done|].
  assert (Hcalls : (search w query page).2 = (search_body w query page).2).
  { unfold search. by destruct (search_body w query page).1. }
  rewrite Hcalls. unfold search_body, extract_keywords.
  rewrite (split_blank _ Hblank).
  destruct (net_bind_calls (perform_search w (generate_search_query []) page)
              (λ search_results,
                 '(summary, sources) ←
                   summarize_results w
                     (evaluate_and_filter_results search_results);
                 googleResults ←
                   google_results (evaluate_and_filter_results search_results);
                 mret (Reply "Completed" summary sources googleResults)))
    as [rest Hrest].
  exists rest. rewrite Hrest.
  unfold perform_search, raise_for_status. net_unfold.
  by destruct (is_success _).
Qed.

(** A query of three spaces. *)
Lemma blank_query_is_searched_witness :
  generate_search_query (extract_keywords "   ") = ""
  ∧ ∃ rest,
      (search empty_world "   " 1).2
      = Get search_url (search_params empty_world "" 1) :: rest.
Proof. exact (blank_query_is_searched empty_world "   " 1 eq_refl). Defined.

(** X19. When [send_json] on a closed connection raises
    [WebSocketDisconnect], a run sends at most one message to the peer
    that is gone, and that message is the last one of the run: after
    the [send_json] that finds the peer gone, [send_json] is not
    called again, neither by the body of the [try] nor by an [except]
    clause. *)
Theorem one_lost_message_at_most (w : World) (p : Peer) (st : WebSocketState) :
  ws_closed_send p = Raises WebSocketDisconnect st →
  (length (lost (trace (websocket_search w p start).2)) ≤ 1)%nat
  ∧ (lost (trace (websocket_search w p start).2) = []
     ∨ ∃ m, lost (trace (websocket_search w p start).2) = [m]
            ∧ last (sends (trace (websocket_search w p start).2))
              = Some (m, false)).
Proof.
  destruct (websocket_search w p start) as [r s] eqn:E.
  revert E. destruct p as [[data|] n policy]; simpl; intros E ->; revert E.
  all: ws_abstract w; intros ps gr sm ek gsq flt.
  all: ws_exec ps gr sm flt.
  all: intros [= <- <-]; subst; cbn [snd trace].
  all: split; [vm_compute; lia|].
  all: first [ left; vm_compute; reflexivity
             | right; eexists; split; vm_compute; reflexivity ].
Qed.

(** The peer leaves after three messages: the fourth message finds it
    gone, and it is the last. *)
Lemma one_lost_message_at_most_witness :
  (length (lost (trace (websocket_search eclipse_world
                          (leaving_peer (Raises WebSocketDisconnect CONNECTED))
                          start).2)) ≤ 1)%nat
  ∧ (lost (trace (websocket_search eclipse_world
                    (leaving_peer (Raises WebSocketDisconnect CONNECTED))
                    start).2) = []
     ∨ ∃ m, lost (trace (websocket_search eclipse_world
                           (leaving_peer (Raises WebSocketDisconnect CONNECTED))
                           start).2) = [m]
            ∧ last (sends (trace (websocket_search eclipse_world
                                    (leaving_peer
                                       (Raises WebSocketDisconnect CONNECTED))
                                    start).2))
              = Some (m, false)).
Proof.
  exact (one_lost_message_at_most eclipse_world
           (leaving_peer (Raises WebSocketDisconnect CONNECTED)) CONNECTED
           eq_refl).
Defined.
